(** * Audio summarizer pipeline: the two Lambda handlers and the transcript formatter

    A shallow embedding of [src/lambda/lambda_transcribe.py] and
    [src/lambda/lambda_summarize.py].

    - Python [str] values are sequences of Unicode code points ([pystr]).
    - Values that come out of [json.loads] (the Lambda event, the transcript
      document, the model response) are the inductive type [json].
    - Python exceptions are the values of [exn]; a computation that may raise
      returns [result].
    - The handlers run in a state-and-exception monad over [world]: the
      process environment, the S3 object store, the local files, the standard
      output and the chronological trace of requests sent to the outside.
    - Library functions whose code is not part of the repository
      ([json.loads], [json.dumps], [str()] of a non-string, UTF-8 coding,
      Jinja2 rendering, [uuid.uuid4], the answers of the AWS services) are the
      fields of the record [runtime]. *)

From Stdlib Require Import ZArith NArith Bool List Ascii String DecimalString Lia.
From stdpp Require Import base option list gmap.

Set Warnings "-register-all".
Local Open Scope Z_scope.

(* ================================================================== *)
(** ** Python values                                                   *)
(* ================================================================== *)

Module Py.

(** A Python [str]: its code points, in order. *)
Abbreviation pystr := (list N).

(** A Python [bytes] object. *)
Abbreviation bytes := (list N).

(** A string literal of the source, as code points. *)
Definition lit (s : string) : pystr :=
  List.map N_of_ascii (list_ascii_of_string s).

(** The newline character of an f-string such as ["\n{x}: "]. *)
Definition NL : N := 10%N.

Fixpoint pystr_eqb (a b : pystr) : bool :=
  match a, b with
  | [], [] => true
  | x :: a', y :: b' => N.eqb x y && pystr_eqb a' b'
  | _, _ => false
  end.

(** [needle] is a prefix of [s]. *)
Fixpoint prefixb (needle s : pystr) : bool :=
  match needle, s with
  | [], _ => true
  | x :: n', y :: s' => N.eqb x y && prefixb n' s'
  | _ :: _, [] => false
  end.

(** [needle in s] on two [str] values: [needle] occurs in [s]. *)
Fixpoint infixb (needle s : pystr) : bool :=
  prefixb needle s ||
  match s with
  | [] => false
  | _ :: s' => infixb needle s'
  end.

(** Number of positions of [s] at which [needle] starts. *)
Fixpoint occurrences (needle s : pystr) : nat :=
  ((if prefixb needle s then 1 else 0) +
   match s with
   | [] => 0
   | _ :: s' => occurrences needle s'
   end)%nat.

(** [str.isspace] on one code point: the characters [str.rstrip()] removes
    when it is called without argument. *)
Definition is_space (c : N) : bool :=
  ((9 <=? c) && (c <=? 13) || (28 <=? c) && (c <=? 32) ||
   (c =? 133) || (c =? 160) || (c =? 5760) ||
   (8192 <=? c) && (c <=? 8202) || (c =? 8232) || (c =? 8233) ||
   (c =? 8239) || (c =? 8287) || (c =? 12288))%N.

(** [s.rstrip()]: [s] without its trailing whitespace, all of it. *)
Fixpoint rstrip (s : pystr) : pystr :=
  match s with
  | [] => []
  | c :: s' =>
      match rstrip s' with
      | [] => if is_space c then [] else [c]
      | r => c :: r
      end
  end.

(** What [json.loads] returns. A [float] is the dyadic rational
    [m * 2^e] it stands for (every finite double is one); NaN and the
    infinities are not represented. A [dict] is its list of items; its keys
    are distinct, as [json.loads] makes them. *)
Inductive json : Type :=
| JNull
| JBool (b : bool)
| JInt (n : Z)
| JFloat (m e : Z)
| JStr (s : pystr)
| JArr (xs : list json)
| JObj (kvs : list (pystr * json)).

(** The exceptions of the program, all of them subclasses of [Exception].
    [KeyError] carries the [repr] of the missing key, which is what
    [str(e)] shows; the others carry their message. [LibraryError] is an
    exception raised inside a library or by a service ([JSONDecodeError],
    [UnicodeDecodeError], [ClientError], [ParamValidationError],
    [TemplateSyntaxError], ...), with its class name and message. *)
Inductive exn : Type :=
| KeyError (key_repr : pystr)
| IndexError (msg : pystr)
| TypeError (msg : pystr)
| AttributeError (msg : pystr)
| FileNotFoundError (msg : pystr)
| LibraryError (cls msg : pystr).

(** [str(e)], as the f-string [f"Error occurred: {e}"] formats it. *)
Definition exn_str (e : exn) : pystr :=
  match e with
  | KeyError r => r
  | IndexError m | TypeError m | AttributeError m
  | FileNotFoundError m | LibraryError _ m => m
  end.

(** [LookupError] is the base class of [KeyError] and [IndexError]. *)
Definition is_lookup_error (e : exn) : bool :=
  match e with
  | KeyError _ | IndexError _ => true
  | _ => false
  end.

Inductive result (A : Type) : Type :=
| Ok (a : A)
| Raise (e : exn).
Arguments Ok {A} a.
Arguments Raise {A} e.

Definition rbind {A B} (r : result A) (k : A -> result B) : result B :=
  match r with
  | Ok a => k a
  | Raise e => Raise e
  end.

(** [KeyError(k)] for a key that is a plain identifier of the source: its
    [repr] is the key between single quotes. *)
Definition key_error (k : pystr) : exn := KeyError (lit "'" ++ k ++ lit "'").

Fixpoint lookup_key (k : pystr) (kvs : list (pystr * json)) : option json :=
  match kvs with
  | [] => None
  | (k', v) :: rest => if pystr_eqb k' k then Some v else lookup_key k rest
  end.

(** The class name Python prints in its type errors. *)
Definition type_name (v : json) : pystr :=
  match v with
  | JNull => lit "NoneType"
  | JBool _ => lit "bool"
  | JInt _ => lit "int"
  | JFloat _ _ => lit "float"
  | JStr _ => lit "str"
  | JArr _ => lit "list"
  | JObj _ => lit "dict"
  end.

(** [v[k]] with a string key [k]. *)
Definition getitem_key (v : json) (k : pystr) : result json :=
  match v with
  | JObj kvs =>
      match lookup_key k kvs with
      | Some x => Ok x
      | None => Raise (key_error k)
      end
  | JArr _ => Raise (TypeError (lit "list indices must be integers or slices, not str"))
  | JStr _ => Raise (TypeError (lit "string indices must be integers, not 'str'"))
  | _ => Raise (TypeError (lit "'" ++ type_name v ++ lit "' object is not subscriptable"))
  end.

(** [v[0]]. *)
Definition getitem_0 (v : json) : result json :=
  match v with
  | JArr (x :: _) => Ok x
  | JArr [] => Raise (IndexError (lit "list index out of range"))
  | JStr (c :: _) => Ok (JStr [c])
  | JStr [] => Raise (IndexError (lit "string index out of range"))
  | JObj _ => Raise (KeyError (lit "0"))
  | _ => Raise (TypeError (lit "'" ++ type_name v ++ lit "' object is not subscriptable"))
  end.

(** [v.get(k, None)]: only a [dict] has the method. *)
Definition dict_get (v : json) (k : pystr) : result json :=
  match v with
  | JObj kvs =>
      match lookup_key k kvs with
      | Some x => Ok x
      | None => Ok JNull
      end
  | _ => Raise (AttributeError (lit "'" ++ type_name v ++ lit "' object has no attribute 'get'"))
  end.

(** The number an [int], [bool] or [float] stands for, as [m * 2^e]. *)
Definition numeric (v : json) : option (Z * Z) :=
  match v with
  | JBool b => Some (Z.b2z b, 0)
  | JInt n => Some (n, 0)
  | JFloat m e => Some (m, e)
  | _ => None
  end.

Definition dyadic_eqb (a b : Z * Z) : bool :=
  let '(m1, e1) := a in
  let '(m2, e2) := b in
  if e1 <=? e2 then m1 =? m2 * 2 ^ (e2 - e1) else m1 * 2 ^ (e1 - e2) =? m2.

(** [a == b] on parsed JSON values. *)
Fixpoint py_eq (a b : json) {struct a} : bool :=
  match a, b with
  | JNull, JNull => true
  | JStr s, JStr t => pystr_eqb s t
  | JArr xs, JArr ys =>
      (fix go (xs ys : list json) : bool :=
         match xs, ys with
         | [], [] => true
         | x :: xs', y :: ys' => py_eq x y && go xs' ys'
         | _, _ => false
         end) xs ys
  | JObj kvs, JObj kws =>
      Nat.eqb (length kvs) (length kws) &&
      (fix go (kvs : list (pystr * json)) : bool :=
         match kvs with
         | [] => true
         | (k, v) :: rest =>
             match lookup_key k kws with
             | Some w => py_eq v w
             | None => false
             end && go rest
         end) kvs
  | (JBool _ | JInt _ | JFloat _ _), _ =>
      match numeric a, numeric b with
      | Some x, Some y => dyadic_eqb x y
      | _, _ => false
      end
  | _, _ => false
  end.

(** [needle in v] for a string [needle]. *)
Definition py_contains (needle : pystr) (v : json) : result bool :=
  match v with
  | JStr s => Ok (infixb needle s)
  | JArr xs => Ok (existsb (fun x => py_eq x (JStr needle)) xs)
  | JObj kvs => Ok (existsb (fun kv => pystr_eqb (fst kv) needle) kvs)
  | _ => Raise (TypeError (lit "argument of type '" ++ type_name v ++ lit "' is not iterable"))
  end.

(** The values a [for] loop over [v] visits. *)
Definition py_iter (v : json) : result (list json) :=
  match v with
  | JArr xs => Ok xs
  | JStr s => Ok (List.map (fun c => JStr [c]) s)
  | JObj kvs => Ok (List.map (fun kv => JStr (fst kv)) kvs)
  | _ => Raise (TypeError (lit "'" ++ type_name v ++ lit "' object is not iterable"))
  end.

(** Truth value of [v] in a condition. *)
Definition py_truthy (v : json) : bool :=
  match v with
  | JNull => false
  | JBool b => b
  | JInt n => negb (n =? 0)
  | JFloat m _ => negb (m =? 0)
  | JStr s => negb (Nat.eqb (length s) 0)
  | JArr xs => negb (Nat.eqb (length xs) 0)
  | JObj kvs => negb (Nat.eqb (length kvs) 0)
  end.

End Py.

Import Py.

(* ================================================================== *)
(** ** The world of a handler invocation                               *)
(* ================================================================== *)

(** The arguments of [transcribe_client.start_transcription_job]. *)
Record transcription_request : Type := TranscriptionRequest {
  TranscriptionJobName : pystr;
  MediaFileUri : pystr;
  MediaFormat : pystr;
  LanguageCode : pystr;
  OutputBucketName : pystr;
  OutputKey : pystr;
  ShowSpeakerLabels : bool;
  MaxSpeakerLabels : Z
}.

(** The arguments of [bedrock_runtime.invoke_model]. *)
Record invoke_kwargs : Type := InvokeKwargs {
  modelId : pystr;
  contentType : pystr;
  accept : pystr;
  body_json : pystr
}.

(** What a handler asks of the outside: a read of the process environment,
    a read of a local file, a request sent to an AWS service. *)
Inductive call : Type :=
| EnvironRead (name : pystr)
| FileRead (path : pystr)
| StartTranscriptionJob (req : transcription_request)
| GetObject (Bucket Key : pystr)
| PutObject (Bucket Key Body ContentType : pystr)
| InvokeModel (kwargs : invoke_kwargs).

Record s3_object : Type := S3Object {
  obj_body : bytes;
  obj_content_type : pystr
}.

Record world : Type := World {
  environ : gmap pystr pystr;
  s3_objects : gmap (pystr * pystr) s3_object;
  files : gmap pystr pystr;
  uuids_drawn : nat;
  trace : list call;
  stdout : list pystr
}.

(** The library functions and the services the handlers rely on, whose code
    is outside the repository. [service_error t c] is the error with which
    the service answers the request [c] made after the calls [t], if it
    refuses it; [bedrock_reply t kwargs] is the body of the model's answer. *)
Record runtime : Type := Runtime {
  json_loads : pystr -> result json;
  json_loads_bytes : bytes -> result json;
  json_dumps : json -> pystr;
  str_other : json -> pystr;
  utf8_decode : bytes -> result pystr;
  utf8_encode : pystr -> bytes;
  jinja_render : pystr -> json -> result pystr;
  uuid4 : nat -> pystr;
  service_error : list call -> call -> option exn;
  bedrock_reply : list call -> invoke_kwargs -> bytes
}.

(** [{'statusCode': ..., 'body': ...}], the value a handler returns. *)
Record response : Type := Response {
  statusCode : Z;
  body : pystr
}.

(** State and exceptions: what was done before an exception stays done. *)
Definition M (A : Type) : Type := world -> result A * world.

Definition ret {A} (a : A) : M A := fun w => (Ok a, w).

Definition raise {A} (e : exn) : M A := fun w => (Raise e, w).

Definition bind {A B} (c : M A) (k : A -> M B) : M B :=
  fun w =>
    match c w with
    | (Ok a, w') => k a w'
    | (Raise e, w') => (Raise e, w')
    end.

Definition lift {A} (r : result A) : M A := fun w => (r, w).

(** [try: body  except Exception as e: handler e]. *)
Definition try_except {A} (body : M A) (handler : exn -> M A) : M A :=
  fun w =>
    match body w with
    | (Ok a, w') => (Ok a, w')
    | (Raise e, w') => handler e w'
    end.

Declare Scope py_scope.
Delimit Scope py_scope with py.
Notation "x <- c ;; k" := (bind c (fun x => k))
  (at level 100, c at next level, right associativity) : py_scope.
Notation "c ;; k" := (bind c (fun _ => k))
  (at level 100, right associativity) : py_scope.
Notation "x <~ r ;; k" := (rbind r (fun x => k))
  (at level 100, r at next level, right associativity) : py_scope.
Local Open Scope py_scope.

Definition log (c : call) (w : world) : world :=
  {| environ := environ w; s3_objects := s3_objects w; files := files w;
     uuids_drawn := uuids_drawn w; trace := trace w ++ [c];
     stdout := stdout w |}.

(** [print(s)]. *)
Definition print (s : pystr) : M unit :=
  fun w =>
    (Ok tt,
     {| environ := environ w; s3_objects := s3_objects w; files := files w;
        uuids_drawn := uuids_drawn w; trace := trace w;
        stdout := stdout w ++ [s] |}).

Section Program.

Variable rt : runtime.

(** [str(v)], and [{v}] in an f-string. *)
Definition py_str (v : json) : pystr :=
  match v with
  | JStr s => s
  | _ => str_other rt v
  end.

(** [str(n)] for a length. *)
Definition str_len (s : pystr) : pystr :=
  str_other rt (JInt (Z.of_nat (length s))).

(** [str(uuid.uuid4())]: the next identifier of the generator. *)
Definition uuid4_str : M pystr :=
  fun w =>
    (Ok (uuid4 rt (uuids_drawn w)),
     {| environ := environ w; s3_objects := s3_objects w; files := files w;
        uuids_drawn := S (uuids_drawn w); trace := trace w;
        stdout := stdout w |}).

(** [os.environ[name]]. *)
Definition environ_getitem (name : pystr) : M pystr :=
  fun w =>
    match environ w !! name with
    | Some v => (Ok v, log (EnvironRead name) w)
    | None => (Raise (key_error name), log (EnvironRead name) w)
    end.

(** [open(path, "r")] and [file.read()]. *)
Definition open_read (path : pystr) : M pystr :=
  fun w =>
    match files w !! path with
    | Some text => (Ok text, log (FileRead path) w)
    | None =>
        (Raise (FileNotFoundError
                  (lit "[Errno 2] No such file or directory: '" ++ path ++ lit "'")),
         log (FileRead path) w)
    end.

(** A request sent to a service: it is recorded, and the service may answer
    with an error. *)
Definition send (c : call) : M unit :=
  fun w =>
    match service_error rt (trace w) c with
    | Some e => (Raise e, log c w)
    | None => (Ok tt, log c w)
    end.

(** One line of botocore's validation report: a parameter whose value
    has not one of the types its shape allows. *)
Definition invalid_type (param : pystr) (value : json) (valid_types : pystr)
    : pystr :=
  lit "Invalid type for parameter " ++ param ++ lit ", value: "
  ++ py_str value ++ lit ", type: <class '" ++ type_name value
  ++ lit "'>, valid types: " ++ valid_types.

(** The report for a parameter that must be a string. *)
Definition string_report (param : pystr) (value : json) : list pystr :=
  match value with
  | JStr _ => []
  | _ => [invalid_type param value (lit "<class 'str'>")]
  end.

(** The report for a parameter that must be a blob; a [str] is one. *)
Definition blob_report (param : pystr) (value : json) : list pystr :=
  match value with
  | JStr _ => []
  | _ =>
      [invalid_type param value
         (lit "<class 'bytes'>, <class 'bytearray'>, file-like object")]
  end.

(** The lines of a report, one under the other. *)
Fixpoint join_lines (lines : list pystr) : pystr :=
  match lines with
  | [] => []
  | [line] => line
  | line :: rest => line ++ NL :: join_lines rest
  end.

(** botocore's [ParamValidationError], raised before a request is sent:
    its text is the heading and the report, a line per parameter in the
    order the call names them. *)
Definition param_validation_error {A} (report : list pystr) : M A :=
  raise (LibraryError (lit "ParamValidationError")
           (lit "Parameter validation failed:" ++ NL :: join_lines report)).

(** [transcribe_client.start_transcription_job(...)]; the handler does not
    look at the answer. *)
Definition start_transcription_job (req : transcription_request) : M unit :=
  send (StartTranscriptionJob req).

(** [s3_client.get_object(Bucket=bucket, Key=key)['Body'].read()]. boto3
    checks the types of the parameters before it sends anything. *)
Definition get_object_body (bucket key : json) : M bytes :=
  match bucket, key with
  | JStr b, JStr k =>
      send (GetObject b k) ;;
      fun w =>
        match s3_objects w !! (b, k) with
        | Some o => (Ok (obj_body o), w)
        | None =>
            (Raise (LibraryError (lit "NoSuchKey")
                      (lit "An error occurred (NoSuchKey) when calling the GetObject operation: The specified key does not exist.")),
             w)
        end
  | _, _ =>
      param_validation_error
        (string_report (lit "Bucket") bucket ++ string_report (lit "Key") key)
  end.

(** [s3_client.put_object(Bucket=bucket, Key=key, Body=body,
    ContentType=content_type)] with a literal key and content type: one
    request, which replaces the whole object when the service accepts it. *)
Definition put_object (bucket : json) (key : pystr) (body : json)
    (content_type : pystr) : M unit :=
  match bucket, body with
  | JStr b, JStr text =>
      send (PutObject b key text content_type) ;;
      fun w =>
        (Ok tt,
         {| environ := environ w;
            s3_objects :=
              <[(b, key) := {| obj_body := utf8_encode rt text;
                               obj_content_type := content_type |}]>
                (s3_objects w);
            files := files w; uuids_drawn := uuids_drawn w;
            trace := trace w; stdout := stdout w |})
  | _, _ =>
      param_validation_error
        (string_report (lit "Bucket") bucket ++ blob_report (lit "Body") body)
  end.

(** [bedrock_runtime.invoke_model] on [kwargs], then [.get('body').read()]. *)
Definition invoke_model (kwargs : invoke_kwargs) : M bytes :=
  fun w =>
    match send (InvokeModel kwargs) w with
    | (Ok _, w') => (Ok (bedrock_reply rt (trace w) kwargs), w')
    | (Raise e, w') => (Raise e, w')
    end.

(** [event['Records'][0]['s3'][a][b]], the expression both handlers start
    with. *)
Definition record_field (event : json) (a b : pystr) : result json :=
  records <~ getitem_key event (lit "Records") ;;
  record <~ getitem_0 records ;;
  s3 <~ getitem_key record (lit "s3") ;;
  x <~ getitem_key s3 a ;;
  getitem_key x b.

End Program.

(* ================================================================== *)
(** ** [lambda_summarize.py]                                           *)
(* ================================================================== *)

Module Summarize.

Section Code.

Variable rt : runtime.

(** The test of line 107:
    [speaker_label is not None and speaker_label != current_speaker]. *)
Definition header_due (speaker_label current_speaker : json) : bool :=
  match speaker_label with
  | JNull => false
  | _ => negb (py_eq speaker_label current_speaker)
  end.

(** [item['alternatives'][0]['content']]. *)
Definition item_content (item : json) : result json :=
  alternatives <~ getitem_key item (lit "alternatives") ;;
  first <~ getitem_0 alternatives ;;
  getitem_key first (lit "content").

(** One turn of the loop of [extract_transcript_from_textract], on the pair
    [(output_text, current_speaker)]. *)
Definition format_item (st : pystr * json) (item : json) : result (pystr * json) :=
  let '(output_text, current_speaker) := st in
  speaker_label <~ dict_get item (lit "speaker_label") ;;
  content <~ item_content item ;;
  let '(output_text, current_speaker) :=
    if header_due speaker_label current_speaker
    then (output_text ++ [NL] ++ py_str rt speaker_label ++ lit ": ", speaker_label)
    else (output_text, current_speaker) in
  type <~ getitem_key item (lit "type") ;;
  let output_text :=
    if py_eq type (JStr (lit "punctuation")) then rstrip output_text
    else output_text in
  Ok (output_text ++ py_str rt content ++ lit " ", current_speaker).

Fixpoint format_items (st : pystr * json) (items : list json)
    : result (pystr * json) :=
  match items with
  | [] => Ok st
  | item :: rest =>
      st' <~ format_item st item ;;
      format_items st' rest
  end.

(** The body of [extract_transcript_from_textract] after [json.loads]. *)
Definition extract_transcript (transcript_json : json) : result pystr :=
  results <~ getitem_key transcript_json (lit "results") ;;
  items <~ getitem_key results (lit "items") ;;
  items <~ py_iter items ;;
  st <~ format_items ([], JNull) items ;;
  Ok (fst st).

Definition extract_transcript_from_textract (file_content : pystr)
    : result pystr :=
  transcript_json <~ json_loads rt file_content ;;
  extract_transcript transcript_json.

(** How many turns of the loop take the branch of lines 108-109, that is,
    how many speaker headers a run of the loop emits. *)
Fixpoint headers_emitted (st : pystr * json) (items : list json) : nat :=
  match items with
  | [] => 0
  | item :: rest =>
      match dict_get item (lit "speaker_label"), format_item st item with
      | Ok speaker_label, Ok st' =>
          (if header_due speaker_label (snd st) then 1 else 0)
          + headers_emitted st' rest
      | _, _ => 0
      end
  end%nat.

(** The [data] of the template: the transcript and the three topics. *)
Definition template_data (transcript : pystr) : json :=
  JObj [(lit "transcript", JStr transcript);
        (lit "topics",
         JArr [JStr (lit "charges"); JStr (lit "location");
               JStr (lit "availability")])].

(** The float [0.9]: the double nearest to nine tenths. *)
Definition float_0_9 : json := JFloat 8106479329266893 (-53).

(** The keyword arguments of [invoke_model] for a prompt. *)
Definition model_kwargs (prompt : pystr) : invoke_kwargs :=
  {| modelId := lit "us.amazon.nova-lite-v1:0";
     contentType := lit "application/json";
     accept := lit "*/*";
     body_json :=
       json_dumps rt
         (JObj [(lit "messages",
                 JArr [JObj [(lit "role", JStr (lit "user"));
                             (lit "content",
                              JArr [JObj [(lit "text", JStr prompt)]])]]);
                (lit "inferenceConfig",
                 JObj [(lit "maxTokens", JInt 2048);
                       (lit "temperature", JInt 0);
                       (lit "topP", float_0_9)])]) |}.

(** [next((item for item in content_list if "text" in item), None)]. *)
Fixpoint first_text_block (content_list : list json) : result json :=
  match content_list with
  | [] => Ok JNull
  | item :: rest =>
      found <~ py_contains (lit "text") item ;;
      if found : bool then Ok item else first_text_block rest
  end.

(** Lines 132-143: the prompt rendered from the template file. *)
Definition render_prompt (transcript : pystr) : M pystr :=
  template_string <- open_read (lit "prompt_template.txt") ;;
  lift (jinja_render rt template_string (template_data transcript)).

(** Lines 167-170: the summary read from the body of the model's answer. *)
Definition parse_summary (reply : bytes) : result json :=
  response_body <~ json_loads_bytes rt reply ;;
  output <~ getitem_key response_body (lit "output") ;;
  message <~ getitem_key output (lit "message") ;;
  content_list <~ getitem_key message (lit "content") ;;
  blocks <~ py_iter content_list ;;
  text_block <~ first_text_block blocks ;;
  if py_truthy text_block then getitem_key text_block (lit "text")
  else Ok (JStr []).

Definition bedrock_summarisation (transcript : pystr) : M json :=
  prompt <- render_prompt transcript ;;
  print (lit "Generated prompt length: " ++ str_len rt prompt ++ lit " characters") ;;
  reply <- invoke_model rt (model_kwargs prompt) ;;
  lift (parse_summary reply).

(** Lines 47-57: everything the [try] block does before the write. *)
Definition read_and_summarise (bucket key : json) : M json :=
  raw <- get_object_body rt bucket key ;;
  file_content <- lift (utf8_decode rt raw) ;;
  transcript <- lift (extract_transcript_from_textract file_content) ;;
  print (lit "Successfully read file " ++ py_str rt key ++ lit " from bucket "
         ++ py_str rt bucket ++ lit ".") ;;
  print (lit "Transcript length: " ++ str_len rt transcript ++ lit " characters") ;;
  bedrock_summarisation transcript.

(** Lines 45-67: the [try] block. *)
Definition summarise_and_store (bucket key : json) : M json :=
  summary <- read_and_summarise bucket key ;;
  put_object rt bucket (lit "results.txt") summary (lit "text/plain") ;;
  print (lit "Summary saved to " ++ py_str rt bucket ++ lit "/results.txt") ;;
  ret summary.

Definition error_response (e : exn) : response :=
  {| statusCode := 500;
     body := json_dumps rt (JStr (lit "Error occurred: " ++ exn_str e)) |}.

Definition skip_message (key : json) : pystr :=
  lit "Skipping file " ++ py_str rt key ++ lit " - not a transcript JSON file".

Definition success_message (bucket key summary : json) : pystr :=
  lit "Successfully summarized " ++ py_str rt key ++ lit " from bucket "
  ++ py_str rt bucket ++ lit ". Summary: " ++ py_str rt summary.

(** [lambda_handler(event, context)]; the [except] clause returns from the
    function, which is the [inr] below. The traceback goes to the standard
    error stream, which [world] does not keep. *)
Definition lambda_handler (event : json) : M response :=
  bucket <- lift (record_field event (lit "bucket") (lit "name")) ;;
  key <- lift (record_field event (lit "object") (lit "key")) ;;
  accepted <- lift (py_contains (lit "-transcript.json") key) ;;
  if negb accepted then
    print (lit "This demo only works with *-transcript.json files. Received: "
           ++ py_str rt key) ;;
    ret {| statusCode := 200;
           body := json_dumps rt (JStr (skip_message key)) |}
  else
    outcome <-
      try_except
        (summary <- summarise_and_store bucket key ;; ret (inl summary))
        (fun e =>
           print (lit "Error occurred: " ++ exn_str e) ;;
           ret (inr (error_response e))) ;;
    match outcome with
    | inl summary =>
        ret {| statusCode := 200;
               body := json_dumps rt (JStr (success_message bucket key summary)) |}
    | inr failure => ret failure
    end.

End Code.

End Summarize.

(* ================================================================== *)
(** ** [lambda_transcribe.py]                                          *)
(* ================================================================== *)

Module Transcribe.

Section Code.

Variable rt : runtime.

(** The request of lines 55-66. *)
Definition job_request (bucket key : json) (job_name output_bucket : pystr)
    : transcription_request :=
  {| TranscriptionJobName := job_name;
     MediaFileUri := lit "s3://" ++ py_str rt bucket ++ lit "/" ++ py_str rt key;
     MediaFormat := lit "mp3";
     LanguageCode := lit "en-US";
     OutputBucketName := output_bucket;
     OutputKey := job_name ++ lit "-transcript.json";
     ShowSpeakerLabels := true;
     MaxSpeakerLabels := 2 |}.

(** Lines 50-68: the [try] block. The arguments of the call are evaluated
    in the order they are written, the environment variable among them,
    before the request is sent. *)
Definition submit_job (bucket key : json) : M unit :=
  uuid <- uuid4_str rt ;;
  let job_name := lit "transcription-job-" ++ uuid in
  output_bucket <- environ_getitem (lit "S3BUCKETNAMETEXT") ;;
  start_transcription_job rt (job_request bucket key job_name output_bucket) ;;
  print (lit "Started transcription job: " ++ job_name ++ lit " for file: "
         ++ py_str rt key).

Definition error_response (e : exn) : response :=
  {| statusCode := 500;
     body := json_dumps rt (JStr (lit "Error occurred: " ++ exn_str e)) |}.

Definition skip_message (key : json) : pystr :=
  lit "Skipping file " ++ py_str rt key ++ lit " - not dialog.mp3".

Definition success_message (bucket key : json) : pystr :=
  lit "Submitted transcription job for " ++ py_str rt key ++ lit " from bucket "
  ++ py_str rt bucket ++ lit ".".

(** [lambda_handler(event, context)]. *)
Definition lambda_handler (event : json) : M response :=
  bucket <- lift (record_field event (lit "bucket") (lit "name")) ;;
  key <- lift (record_field event (lit "object") (lit "key")) ;;
  if negb (py_eq key (JStr (lit "dialog.mp3"))) then
    print (lit "This demo only works with dialog.mp3. Received: " ++ py_str rt key) ;;
    ret {| statusCode := 200;
           body := json_dumps rt (JStr (skip_message key)) |}
  else
    outcome <-
      try_except
        (submit_job bucket key ;; ret None)
        (fun e =>
           print (lit "Error occurred: " ++ exn_str e) ;;
           ret (Some (error_response e))) ;;
    match outcome with
    | Some failure => ret failure
    | None =>
        ret {| statusCode := 200;
               body := json_dumps rt (JStr (success_message bucket key)) |}
    end.

End Code.

End Transcribe.

(* ================================================================== *)
(** ** Vocabulary of the statements                                    *)
(* ================================================================== *)

Module Transcript.

(** An item of the transcript document, with its fields in the order of
    the service's output. *)
Definition transcript_item (type : pystr) (speaker_label : option pystr)
    (content : pystr) : json :=
  JObj ((lit "type", JStr type)
        :: match speaker_label with
           | Some l => [(lit "speaker_label", JStr l)]
           | None => []
           end
        ++ [(lit "alternatives", JArr [JObj [(lit "content", JStr content)]])]).

(** The document that wraps [items] under [results.items]. *)
Definition transcript_document (items : list json) : json :=
  JObj [(lit "results", JObj [(lit "items", JArr items)])].

(** The speaker label an item carries, if it carries one. *)
Definition label_of (item : json) : option pystr :=
  match dict_get item (lit "speaker_label") with
  | Ok (JStr l) => Some l
  | _ => None
  end.

Definition content_of (item : json) : pystr :=
  match Summarize.item_content item with
  | Ok (JStr c) => c
  | _ => []
  end.

Definition is_punctuation (item : json) : bool :=
  match getitem_key item (lit "type") with
  | Ok type => py_eq type (JStr (lit "punctuation"))
  | Raise _ => false
  end.

(** An item of the shape the service documents: an object whose type is
    one of the two strings, whose first alternative has a string content,
    and whose speaker label, when present, is a string or null. *)
Definition well_formed_item (item : json) : bool :=
  match dict_get item (lit "speaker_label") with
  | Ok JNull | Ok (JStr _) => true
  | _ => false
  end
  && match Summarize.item_content item with
     | Ok (JStr _) => true
     | _ => false
     end
  && match getitem_key item (lit "type") with
     | Ok (JStr type) =>
         pystr_eqb type (lit "pronunciation") || pystr_eqb type (lit "punctuation")
     | _ => false
     end.

(** The speaker the cursor points at once [items] have been read, starting
    from [current_speaker]: the last label met. *)
Fixpoint speaker_after (current_speaker : json) (items : list json) : json :=
  match items with
  | [] => current_speaker
  | item :: rest =>
      speaker_after
        (match label_of item with
         | Some l => JStr l
         | None => current_speaker
         end) rest
  end.

(** The text is not empty and its last character is not whitespace. *)
Definition ends_in_text (s : pystr) : bool :=
  negb (is_space (List.last s 32%N)).

Definition no_newline (s : pystr) : bool :=
  forallb (fun c => negb (N.eqb c NL)) s.

(** The header the formatter writes when the speaker changes to [l]. *)
Definition speaker_header (l : pystr) : pystr := NL :: l ++ lit ": ".

(** Every item carries the speaker label [l]. *)
Definition all_labelled (l : pystr) (items : list json) : bool :=
  forallb (fun item =>
             match label_of item with
             | Some l' => pystr_eqb l' l
             | None => false
             end) items.

End Transcript.

Module Events.

(** The notification of an upload of [key] to [bucket]. *)
Definition s3_event (bucket key : json) : json :=
  JObj [(lit "Records",
         JArr [JObj [(lit "s3",
                      JObj [(lit "bucket", JObj [(lit "name", bucket)]);
                            (lit "object", JObj [(lit "key", key)])])]])].

(** The ways an event lacks the record structure: no ["Records"] entry, an
    empty list of records, a first record without ["s3"], an ["s3"] entry
    without ["bucket"], a bucket without ["name"], an ["s3"] entry without
    ["object"], an object without ["key"]. *)
Inductive lacks_record_structure : json -> Prop :=
| no_records kvs :
    lookup_key (lit "Records") kvs = None ->
    lacks_record_structure (JObj kvs)
| empty_records kvs :
    lookup_key (lit "Records") kvs = Some (JArr []) ->
    lacks_record_structure (JObj kvs)
| no_s3 kvs record rest :
    lookup_key (lit "Records") kvs = Some (JArr (JObj record :: rest)) ->
    lookup_key (lit "s3") record = None ->
    lacks_record_structure (JObj kvs)
| no_bucket kvs record rest s3 :
    lookup_key (lit "Records") kvs = Some (JArr (JObj record :: rest)) ->
    lookup_key (lit "s3") record = Some (JObj s3) ->
    lookup_key (lit "bucket") s3 = None ->
    lacks_record_structure (JObj kvs)
| no_bucket_name kvs record rest s3 bucket :
    lookup_key (lit "Records") kvs = Some (JArr (JObj record :: rest)) ->
    lookup_key (lit "s3") record = Some (JObj s3) ->
    lookup_key (lit "bucket") s3 = Some (JObj bucket) ->
    lookup_key (lit "name") bucket = None ->
    lacks_record_structure (JObj kvs)
| no_object kvs record rest s3 bucket name :
    lookup_key (lit "Records") kvs = Some (JArr (JObj record :: rest)) ->
    lookup_key (lit "s3") record = Some (JObj s3) ->
    lookup_key (lit "bucket") s3 = Some (JObj bucket) ->
    lookup_key (lit "name") bucket = Some name ->
    lookup_key (lit "object") s3 = None ->
    lacks_record_structure (JObj kvs)
| no_object_key kvs record rest s3 bucket name object :
    lookup_key (lit "Records") kvs = Some (JArr (JObj record :: rest)) ->
    lookup_key (lit "s3") record = Some (JObj s3) ->
    lookup_key (lit "bucket") s3 = Some (JObj bucket) ->
    lookup_key (lit "name") bucket = Some name ->
    lookup_key (lit "object") s3 = Some (JObj object) ->
    lookup_key (lit "key") object = None ->
    lacks_record_structure (JObj kvs).

(** The write requests among the calls of a trace. *)
Definition is_put (c : call) : bool :=
  match c with
  | PutObject _ _ _ _ => true
  | _ => false
  end.

Definition puts (t : list call) : list call := List.filter is_put t.

(** A computation that leaves the object store as it is and sends no
    write request, whatever its outcome. *)
Definition writes_nothing {A} (c : M A) : Prop :=
  forall (w : world) (r : result A) (w' : world),
    c w = (r, w') ->
    s3_objects w' = s3_objects w /\ puts (trace w') = puts (trace w).

End Events.

(* ================================================================== *)
(** ** The prompt template                                             *)
(* ================================================================== *)

Module Template.

(** Modelled from the spec: the resource [prompt_template.txt], which the
    code opens at line 132 and which is not under src/. The spec describes
    it as "a text file with named placeholders for transcript and topics,
    resolved at render time": a template is the sequence of its pieces,
    literal text and the two placeholders. *)
Inductive piece : Type :=
| Literal (text : pystr)
| TranscriptPlaceholder
| TopicsPlaceholder.

(** Modelled from the spec: the text of the file, with each placeholder
    written by its name between double braces, the syntax of the [Template]
    class the code renders it with. *)
Fixpoint template_source (pieces : list piece) : pystr :=
  match pieces with
  | [] => []
  | Literal text :: rest => text ++ template_source rest
  | TranscriptPlaceholder :: rest =>
      lit "{{ transcript }}" ++ template_source rest
  | TopicsPlaceholder :: rest => lit "{{ topics }}" ++ template_source rest
  end.

(** Modelled from the spec: the text put in the place of the topic list,
    as Python prints a list of plain words: each word between single
    quotes, a comma and a space between them, between square brackets. *)
Fixpoint quoted_words (topics : list pystr) : pystr :=
  match topics with
  | [] => []
  | [topic] => lit "'" ++ topic ++ lit "'"
  | topic :: rest => lit "'" ++ topic ++ lit "', " ++ quoted_words rest
  end.

(** Modelled from the spec: the topic list as the renderer writes it in
    the place of its placeholder. *)
Definition topics_text (topics : list pystr) : pystr :=
  lit "[" ++ quoted_words topics ++ lit "]".

(** Modelled from the spec: the Prompt Renderer, which must "substitute
    both into a textual template" with the dialogue "inserted verbatim",
    without escaping. *)
Fixpoint substitute (pieces : list piece) (transcript : pystr)
    (topics : list pystr) : pystr :=
  match pieces with
  | [] => []
  | Literal text :: rest => text ++ substitute rest transcript topics
  | TranscriptPlaceholder :: rest =>
      transcript ++ substitute rest transcript topics
  | TopicsPlaceholder :: rest =>
      topics_text topics ++ substitute rest transcript topics
  end.

Definition is_transcript_placeholder (p : piece) : bool :=
  match p with
  | TranscriptPlaceholder => true
  | _ => false
  end.

Definition is_topics_placeholder (p : piece) : bool :=
  match p with
  | TopicsPlaceholder => true
  | _ => false
  end.

(** Modelled from the spec: the template has a placeholder for the
    transcript and one for the topics. *)
Definition has_both_placeholders (pieces : list piece) : bool :=
  existsb is_transcript_placeholder pieces
  && existsb is_topics_placeholder pieces.

(** The three topics of line 138. *)
Definition fixed_topics : list pystr :=
  [lit "charges"; lit "location"; lit "availability"].

End Template.

(* ================================================================== *)
(** ** A small runtime and the inputs of the scenarios                 *)
(* ================================================================== *)

Module Demo.

Import Transcript Events.

Definition decimal (n : Z) : pystr :=
  lit (DecimalString.NilEmpty.string_of_int (Z.to_int n)).

(** A printer for the values of the examples: strings without escapes,
    floats as mantissa and binary exponent. *)
Fixpoint dumps (v : json) : pystr :=
  match v with
  | JNull => lit "null"
  | JBool true => lit "true"
  | JBool false => lit "false"
  | JInt n => decimal n
  | JFloat m e => decimal m ++ lit "p" ++ decimal e
  | JStr s => 34%N :: s ++ [34%N]
  | JArr xs =>
      lit "["
      ++ (fix go (xs : list json) : pystr :=
            match xs with
            | [] => []
            | x :: rest => dumps x ++ lit "," ++ go rest
            end) xs
      ++ lit "]"
  | JObj kvs =>
      lit "{"
      ++ (fix go (kvs : list (pystr * json)) : pystr :=
            match kvs with
            | [] => []
            | (k, x) :: rest =>
                34%N :: k ++ 34%N :: lit ":" ++ dumps x ++ lit "," ++ go rest
            end) kvs
      ++ lit "}"
  end.

(** The three items of scenario 1. *)
Definition scenario1_items : list json :=
  [transcript_item (lit "pronunciation") (Some (lit "spk_0")) (lit "Hello");
   transcript_item (lit "punctuation") None (lit ",");
   transcript_item (lit "pronunciation") (Some (lit "spk_0")) (lit "there")].

Definition scenario1_document : json := transcript_document scenario1_items.

Definition scenario1_text : pystr := dumps scenario1_document.

(** A word by one speaker, then a comma the service attributes to the
    other one. *)
Definition relabelled_comma_items : list json :=
  [transcript_item (lit "pronunciation") (Some (lit "spk_0")) (lit "Hello");
   transcript_item (lit "punctuation") (Some (lit "spk_1")) (lit ",")].

(** A transcript that starts with a punctuation mark. *)
Definition leading_comma_items : list json :=
  [transcript_item (lit "punctuation") (Some (lit "spk_0")) (lit ",")].

(** An answer of the model with one text block. *)
Definition model_answer : json :=
  JObj [(lit "output",
         JObj [(lit "message",
                JObj [(lit "content",
                       JArr [JObj [(lit "text",
                                    JStr (lit "Positive; no issues."))]])])])].

Definition template : pystr := lit "Summarise, by topic, this conversation: ".

(** A renderer that writes the transcript and the topics after the text of
    the template. *)
Definition render (template_string : pystr) (data : json) : result pystr :=
  match getitem_key data (lit "transcript"), getitem_key data (lit "topics") with
  | Ok (JStr transcript), Ok topics =>
      Ok (template_string ++ transcript ++ dumps topics)
  | _, _ => Raise (LibraryError (lit "UndefinedError") (lit "undefined variable"))
  end.

Definition decode_error : exn :=
  LibraryError (lit "JSONDecodeError") (lit "Expecting value: line 1 column 1 (char 0)").

Definition demo_runtime : runtime :=
  {| json_loads := fun s =>
       if pystr_eqb s scenario1_text then Ok scenario1_document
       else Raise decode_error;
     json_loads_bytes := fun b =>
       if pystr_eqb b (dumps model_answer) then Ok model_answer
       else Raise decode_error;
     json_dumps := dumps;
     str_other := dumps;
     utf8_decode := fun b => Ok b;
     utf8_encode := fun s => s;
     jinja_render := render;
     uuid4 := fun n => lit "00000000-0000-4000-8000-" ++ decimal (Z.of_nat n);
     service_error := fun _ _ => None;
     bedrock_reply := fun _ _ => dumps model_answer |}.

(** A world where the destination bucket is configured, the transcript of
    scenario 1 is stored and the template is in place. *)
Definition configured_world : world :=
  {| environ := {[ lit "S3BUCKETNAMETEXT" := lit "text-bucket" ]};
     s3_objects :=
       {[ (lit "text-bucket", lit "job123-transcript.json") :=
            {| obj_body := scenario1_text;
               obj_content_type := lit "application/json" |} ]};
     files := {[ lit "prompt_template.txt" := template ]};
     uuids_drawn := 0;
     trace := [];
     stdout := [] |}.

(** The same world without the environment variable. *)
Definition unconfigured_world : world :=
  {| environ := ∅;
     s3_objects := s3_objects configured_world;
     files := files configured_world;
     uuids_drawn := 0;
     trace := [];
     stdout := [] |}.

(** The configured world without the template file. *)
Definition world_without_template : world :=
  {| environ := environ configured_world;
     s3_objects := s3_objects configured_world;
     files := ∅;
     uuids_drawn := 0;
     trace := [];
     stdout := [] |}.

(** The dialogue of scenario 1 and the prompt [render] makes of it. *)
Definition scenario1_dialogue : pystr := NL :: lit "spk_0: Hello, there ".

Definition scenario1_prompt : pystr :=
  template ++ scenario1_dialogue
  ++ dumps (JArr [JStr (lit "charges"); JStr (lit "location");
                  JStr (lit "availability")]).

(** The notification of the upload of the transcript of scenario 1. *)
Definition transcript_event : json :=
  s3_event (JStr (lit "text-bucket")) (JStr (lit "job123-transcript.json")).

End Demo.

(* ================================================================== *)
(** ** Vocabulary of the further properties                            *)
(* ================================================================== *)

Module Behaviour.

Import Transcript Events.

(** The exception a turn of the formatter's loop raises on [item]: that of
    the first of its three lookups that fails, in the order of the source
    ([item.get], [item['alternatives'][0]['content']], [item['type']]). *)
Definition item_error (item : json) : option exn :=
  match dict_get item (lit "speaker_label") with
  | Raise e => Some e
  | Ok _ =>
      match Summarize.item_content item with
      | Raise e => Some e
      | Ok _ =>
          match getitem_key item (lit "type") with
          | Raise e => Some e
          | Ok _ => None
          end
      end
  end.

Definition error_free (item : json) : bool :=
  match item_error item with
  | None => true
  | Some _ => false
  end.

(** Number of newline characters of a text. *)
Definition newlines (s : pystr) : nat :=
  length (List.filter (N.eqb NL) s).

(** No newline of the text is in the whitespace [rstrip] would remove. *)
Definition settled (out : pystr) : Prop :=
  newlines (rstrip out) = newlines out.

(** The value the cursor [current_speaker] holds for a speaker. *)
Definition cursor (speaker : option pystr) : json :=
  match speaker with
  | Some l => JStr l
  | None => JNull
  end.

(** Number of turns in a sequence of speaker labels, read after
    [speaker]: a labelled item starts a turn when its label is not the one
    of the last labelled item before it; an item without label never does. *)
Fixpoint speaker_turns (speaker : option pystr)
    (labels : list (option pystr)) : nat :=
  match labels with
  | [] => 0
  | None :: rest => speaker_turns speaker rest
  | Some l :: rest =>
      (match speaker with
       | Some l' => if pystr_eqb l l' then 0 else 1
       | None => 1
       end + speaker_turns (Some l) rest)%nat
  end.

(** The label, when there is one, holds no newline. *)
Definition label_on_one_line (item : json) : bool :=
  match label_of item with
  | Some l => no_newline l
  | None => true
  end.

(** [response_body["output"]["message"]["content"]] (line 168). *)
Definition content_list (response_body : json) : result json :=
  rbind (getitem_key response_body (lit "output")) (fun output =>
  rbind (getitem_key output (lit "message")) (fun message =>
  getitem_key message (lit "content"))).

(** A content block that is an object without ["text"] entry. *)
Definition has_no_text (block : json) : bool :=
  match block with
  | JObj kvs =>
      match lookup_key (lit "text") kvs with
      | None => true
      | Some _ => false
      end
  | _ => false
  end.

(** The calls one invocation of the summarization handler can make for
    the bucket and key of its event: none, or the fetch, then the read of
    the template, then one invocation of the model on a rendered prompt,
    then one write of results.txt to the same bucket, each only after the
    one before. *)
Inductive summarize_calls (rt : runtime) : json -> json -> list call -> Prop :=
| calls_none bucket key :
    summarize_calls rt bucket key []
| calls_fetch b k :
    summarize_calls rt (JStr b) (JStr k) [GetObject b k]
| calls_template b k :
    summarize_calls rt (JStr b) (JStr k)
      [GetObject b k; FileRead (lit "prompt_template.txt")]
| calls_model b k prompt :
    summarize_calls rt (JStr b) (JStr k)
      [GetObject b k; FileRead (lit "prompt_template.txt");
       InvokeModel (Summarize.model_kwargs rt prompt)]
| calls_write b k prompt summary :
    summarize_calls rt (JStr b) (JStr k)
      [GetObject b k; FileRead (lit "prompt_template.txt");
       InvokeModel (Summarize.model_kwargs rt prompt);
       PutObject b (lit "results.txt") summary (lit "text/plain")].

(** The calls one invocation of the transcription handler can make: none,
    or the read of the variable, then one job-start request. *)
Inductive transcribe_calls (rt : runtime) (bucket key : json) (w : world)
    : list call -> Prop :=
| job_none : transcribe_calls rt bucket key w []
| job_unconfigured :
    transcribe_calls rt bucket key w [EnvironRead (lit "S3BUCKETNAMETEXT")]
| job_submitted output_bucket :
    environ w !! lit "S3BUCKETNAMETEXT" = Some output_bucket ->
    transcribe_calls rt bucket key w
      [EnvironRead (lit "S3BUCKETNAMETEXT");
       StartTranscriptionJob
         (Transcribe.job_request rt bucket key
            (lit "transcription-job-" ++ uuid4 rt (uuids_drawn w))
            output_bucket)].

(** A response of one of the two shapes a handler builds. *)
Definition status_200_or_500 (r : response) : Prop :=
  statusCode r = 200 \/ statusCode r = 500.

(** An item without the ["alternatives"] entry. *)
Definition item_without_alternatives : json :=
  JObj [(lit "type", JStr (lit "pronunciation"));
        (lit "speaker_label", JStr (lit "spk_0"))].

(** A conversation of two speakers: two words, a full stop, a word of the
    other speaker, a word of the first one again. *)
Definition two_speaker_items : list json :=
  [transcript_item (lit "pronunciation") (Some (lit "spk_0")) (lit "Hello");
   transcript_item (lit "pronunciation") (Some (lit "spk_0")) (lit "there");
   transcript_item (lit "punctuation") (Some (lit "spk_0")) (lit ".");
   transcript_item (lit "pronunciation") (Some (lit "spk_1")) (lit "Hi");
   transcript_item (lit "pronunciation") (Some (lit "spk_0")) (lit "Bye")].

(** An answer of the model whose only content block has no text. *)
Definition silent_answer : json :=
  JObj [(lit "output",
         JObj [(lit "message",
                JObj [(lit "content",
                       JArr [JObj [(lit "toolUse", JObj [])]])])])].

(** The runtime of the examples, with a model that gives that answer. *)
Definition silent_runtime : runtime :=
  {| json_loads := json_loads Demo.demo_runtime;
     json_loads_bytes := fun b =>
       if pystr_eqb b (Demo.dumps silent_answer) then Ok silent_answer
       else Raise Demo.decode_error;
     json_dumps := Demo.dumps;
     str_other := Demo.dumps;
     utf8_decode := fun b => Ok b;
     utf8_encode := fun s => s;
     jinja_render := Demo.render;
     uuid4 := uuid4 Demo.demo_runtime;
     service_error := fun _ _ => None;
     bedrock_reply := fun _ _ => Demo.dumps silent_answer |}.

(** A template with both placeholders. *)
Definition example_template : list Template.piece :=
  [Template.Literal (lit "Summarise this conversation: ");
   Template.TranscriptPlaceholder;
   Template.Literal (lit " Cover the topics ");
   Template.TopicsPlaceholder;
   Template.Literal (lit ".")].

(** A renderer that fills the pieces of [example_template] with the
    transcript and the topics of the data. *)
Definition fill_example (template_string : pystr) (data : json)
    : result pystr :=
  match getitem_key data (lit "transcript"), getitem_key data (lit "topics") with
  | Ok (JStr transcript), Ok (JArr [JStr a; JStr b; JStr c]) =>
      Ok (Template.substitute example_template transcript [a; b; c])
  | _, _ => Raise (LibraryError (lit "UndefinedError") (lit "undefined variable"))
  end.

(** The runtime of the examples, with that renderer. *)
Definition templated_runtime : runtime :=
  {| json_loads := json_loads Demo.demo_runtime;
     json_loads_bytes := json_loads_bytes Demo.demo_runtime;
     json_dumps := Demo.dumps;
     str_other := Demo.dumps;
     utf8_decode := fun b => Ok b;
     utf8_encode := fun s => s;
     jinja_render := fill_example;
     uuid4 := uuid4 Demo.demo_runtime;
     service_error := fun _ _ => None;
     bedrock_reply := bedrock_reply Demo.demo_runtime |}.

(** The configured world, with [example_template] as template file. *)
Definition templated_world : world :=
  {| environ := environ Demo.configured_world;
     s3_objects := s3_objects Demo.configured_world;
     files :=
       {[ lit "prompt_template.txt" := Template.template_source example_template ]};
     uuids_drawn := 0;
     trace := [];
     stdout := [] |}.

(** An answer of the model with a block without text, then a block with
    a text, then a number and another text. *)
Definition mixed_answer : json :=
  JObj [(lit "output",
         JObj [(lit "message",
                JObj [(lit "content",
                       JArr [JObj [(lit "toolUse", JObj [])];
                             JObj [(lit "text", JStr (lit "First summary."))];
                             JInt 5;
                             JObj [(lit "text", JStr (lit "Second summary."))]])])])].

(** The runtime of the examples, with a model that gives that answer. *)
Definition mixed_runtime : runtime :=
  {| json_loads := json_loads Demo.demo_runtime;
     json_loads_bytes := fun b =>
       if pystr_eqb b (Demo.dumps mixed_answer) then Ok mixed_answer
       else Raise Demo.decode_error;
     json_dumps := Demo.dumps;
     str_other := Demo.dumps;
     utf8_decode := fun b => Ok b;
     utf8_encode := fun s => s;
     jinja_render := Demo.render;
     uuid4 := uuid4 Demo.demo_runtime;
     service_error := fun _ _ => None;
     bedrock_reply := fun _ _ => Demo.dumps mixed_answer |}.

(** The error of a service that has too many jobs running. *)
Definition limit_exceeded : exn :=
  LibraryError (lit "LimitExceededException")
    (lit "An error occurred (LimitExceededException) when calling the StartTranscriptionJob operation: Too many jobs.").

(** The runtime of the examples, with a transcription service that
    refuses every job. *)
Definition busy_runtime : runtime :=
  {| json_loads := json_loads Demo.demo_runtime;
     json_loads_bytes := json_loads_bytes Demo.demo_runtime;
     json_dumps := Demo.dumps;
     str_other := Demo.dumps;
     utf8_decode := fun b => Ok b;
     utf8_encode := fun s => s;
     jinja_render := Demo.render;
     uuid4 := uuid4 Demo.demo_runtime;
     service_error := fun _ c =>
       match c with
       | StartTranscriptionJob _ => Some limit_exceeded
       | _ => None
       end;
     bedrock_reply := bedrock_reply Demo.demo_runtime |}.

(** One record of a notification. *)
Definition upload_record (bucket key : pystr) : json :=
  JObj [(lit "s3",
         JObj [(lit "bucket", JObj [(lit "name", JStr bucket)]);
               (lit "object", JObj [(lit "key", JStr key)])])].

(** A notification with two records and an entry of its own. *)
Definition two_record_event : json :=
  JObj [(lit "source", JStr (lit "test"));
        (lit "Records",
         JArr [upload_record (lit "audio-bucket") (lit "other.mp3");
               upload_record (lit "audio-bucket") (lit "dialog.mp3")])].

End Behaviour.

(* ================================================================== *)
(** ** Facts about strings and values                                  *)
(* ================================================================== *)

Import Transcript Events.

(** Case analysis on the innermost test of a run recorded in [H]. *)
Ltac case_run H :=
  match type of H with
  | context [match ?x with _ => _ end] =>
      lazymatch x with
      | context [match _ with _ => _ end] => fail
      | _ => destruct x eqn:?
      end
  end;
  cbv beta iota in H;
  cbn [environ s3_objects files uuids_drawn trace stdout] in H.

(** Unfolding of the monad, one layer of the program at a time. *)
Ltac run_monad :=
  cbv beta iota delta [bind lift ret raise try_except print log send
                       uuid4_str environ_getitem start_transcription_job];
  cbn [environ s3_objects files uuids_drawn trace stdout].

Lemma pystr_eqb_refl (s : pystr) : pystr_eqb s s = true.
Proof.
  induction s as [|c s IH]; simpl; [reflexivity|].
  rewrite N.eqb_refl. exact IH.
Qed.

Lemma pystr_eqb_eq (a b : pystr) : pystr_eqb a b = true <-> a = b.
Proof.
  split; [|intros ->; apply pystr_eqb_refl].
  revert b. induction a as [|x a IH]; intros [|y b]; simpl; try congruence.
  intros H. apply andb_prop in H as [Hxy Hab].
  apply N.eqb_eq in Hxy. apply IH in Hab. congruence.
Qed.

Lemma pystr_eqb_neq (a b : pystr) : pystr_eqb a b = false <-> a <> b.
Proof.
  split.
  - intros H Heq. apply pystr_eqb_eq in Heq. congruence.
  - intros H. destruct (pystr_eqb a b) eqn:E; [|reflexivity].
    apply pystr_eqb_eq in E. contradiction.
Qed.

Lemma prefixb_app (p r : pystr) : prefixb p (p ++ r) = true.
Proof.
  induction p as [|c p IH]; simpl; [reflexivity|].
  rewrite N.eqb_refl. exact IH.
Qed.

Lemma prefixb_inv (p s : pystr) :
  prefixb p s = true -> exists r, s = p ++ r.
Proof.
  revert s. induction p as [|c p IH]; intros s H.
  - exists s. reflexivity.
  - destruct s as [|d s]; simpl in H; [discriminate|].
    apply andb_prop in H as [Hcd Hps]. apply N.eqb_eq in Hcd.
    destruct (IH _ Hps) as [r ->]. exists r. simpl. congruence.
Qed.

Lemma infixb_app (a p b : pystr) : infixb p (a ++ p ++ b) = true.
Proof.
  induction a as [|c a IH]; simpl.
  - destruct (p ++ b) eqn:E; simpl.
    + destruct p; [reflexivity|discriminate].
    + rewrite <- E, prefixb_app. reflexivity.
  - rewrite IH. apply orb_true_r.
Qed.

Lemma infixb_inv (p s : pystr) :
  infixb p s = true -> exists a b, s = a ++ p ++ b.
Proof.
  induction s as [|c s IH]; simpl; intros H.
  - rewrite orb_false_r in H. destruct (prefixb_inv _ _ H) as [r Hr].
    exists [], r. exact Hr.
  - apply orb_prop in H as [H|H].
    + destruct (prefixb_inv _ _ H) as [r Hr]. exists [], r. exact Hr.
    + destruct (IH H) as (a & b & ->). exists (c :: a), b. reflexivity.
Qed.

(** [rstrip] stops at the last character that is not whitespace. *)
Lemma rstrip_keeps (p : pystr) (c : N) (r : pystr) :
  is_space c = false -> rstrip (p ++ c :: r) = p ++ c :: rstrip r.
Proof.
  intros Hc. induction p as [|x p IH]; simpl.
  - rewrite Hc. destruct (rstrip r); reflexivity.
  - rewrite IH. destruct p; reflexivity.
Qed.

Lemma rstrip_spaces (r : pystr) :
  forallb is_space r = true -> rstrip r = [].
Proof.
  induction r as [|x r IH]; simpl; [reflexivity|].
  intros H. apply andb_prop in H as [Hx Hr].
  rewrite (IH Hr), Hx. reflexivity.
Qed.

(** What [rstrip] removes is a run of whitespace at the end. *)
Lemma rstrip_split (s : pystr) :
  exists t, s = rstrip s ++ t /\ forallb is_space t = true.
Proof.
  induction s as [|x s (t & Hs & Ht)]; simpl.
  - exists []. split; reflexivity.
  - destruct (rstrip s) as [|y r] eqn:E.
    + destruct (is_space x) eqn:Hx.
      * exists (x :: s). split; [reflexivity|].
        simpl. rewrite Hx. simpl in Hs. rewrite Hs. exact Ht.
      * exists s. split; [reflexivity|].
        simpl in Hs. rewrite Hs. exact Ht.
    + exists t. split; [|exact Ht]. simpl. f_equal. exact Hs.
Qed.

Lemma ends_in_text_inv (s : pystr) :
  ends_in_text s = true ->
  exists p c, s = p ++ [c] /\ is_space c = false.
Proof.
  unfold ends_in_text. intros H.
  destruct (List.exists_last (l := s)) as (p & c & ->).
  - intros ->. simpl in H. discriminate.
  - exists p, c. split; [reflexivity|].
    rewrite List.last_last in H. apply negb_true_iff in H. exact H.
Qed.

(** After a text that ends in a character, [rstrip] removes the single
    space that follows it and nothing else. *)
Lemma rstrip_one_space (out s : pystr) :
  ends_in_text s = true -> rstrip (out ++ s ++ lit " ") = out ++ s.
Proof.
  intros H. destruct (ends_in_text_inv _ H) as (p & c & -> & Hc).
  replace (out ++ (p ++ [c]) ++ lit " ") with ((out ++ p) ++ c :: lit " ")
    by (rewrite <- !app_assoc; reflexivity).
  rewrite rstrip_keeps by exact Hc.
  rewrite <- !app_assoc. reflexivity.
Qed.

(** A string is equal, in Python's sense, to itself only. *)
Lemma py_eq_str_l (s : pystr) (v : json) :
  py_eq (JStr s) v = true <-> v = JStr s.
Proof.
  destruct v; simpl; try (split; [discriminate|congruence]).
  rewrite pystr_eqb_eq. split; congruence.
Qed.

Lemma py_eq_str_r (v : json) (s : pystr) :
  py_eq v (JStr s) = true <-> v = JStr s.
Proof.
  destruct v; simpl; try (split; [discriminate|congruence]).
  rewrite pystr_eqb_eq. split; congruence.
Qed.

(* ================================================================== *)
(** ** The transcript formatter                                        *)
(* ================================================================== *)

Section Formatter.

Variable rt : runtime.

(** What one turn of the loop does with an item of the documented shape. *)
Lemma format_item_wf (out : pystr) (cur item : json) :
  well_formed_item item = true ->
  Summarize.format_item rt (out, cur) item =
  let st :=
    match label_of item with
    | Some l =>
        if Summarize.header_due (JStr l) cur
        then (out ++ speaker_header l, JStr l)
        else (out, cur)
    | None => (out, cur)
    end in
  Ok ((if is_punctuation item then rstrip (fst st) else fst st)
      ++ content_of item ++ lit " ", snd st).
Proof.
  unfold well_formed_item, Summarize.format_item, label_of, content_of,
    is_punctuation, speaker_header.
  intros H.
  destruct (dict_get item (lit "speaker_label")) as [[| | | |l| |]|];
    try discriminate;
    (destruct (Summarize.item_content item) as [[| | | |c| |]|];
     try discriminate);
    (destruct (getitem_key item (lit "type")) as [[| | | |t| |]|];
     try discriminate);
    cbn [rbind Summarize.header_due py_str fst snd].
  - reflexivity.
  - destruct (negb (py_eq (JStr l) cur)); reflexivity.
Qed.

Lemma format_items_app (st : pystr * json) (a b : list json) :
  Summarize.format_items rt st (a ++ b) =
  rbind (Summarize.format_items rt st a)
        (fun st' => Summarize.format_items rt st' b).
Proof.
  revert st. induction a as [|x a IH]; intros st;
    cbn [app Summarize.format_items]; [reflexivity|].
  destruct (Summarize.format_item rt st x); cbn [rbind];
    [apply IH|reflexivity].
Qed.

(** The loop does not raise on items of the documented shape, and leaves
    the cursor on the last label met. *)
Lemma format_items_wf (items : list json) :
  forall (out : pystr) (cur : json),
  forallb well_formed_item items = true ->
  exists out',
    Summarize.format_items rt (out, cur) items
    = Ok (out', speaker_after cur items).
Proof.
  induction items as [|item items IH]; intros out cur H;
    cbn [Summarize.format_items forallb speaker_after] in *.
  - exists out. reflexivity.
  - apply andb_prop in H as [Hitem Hrest].
    rewrite (format_item_wf out cur item Hitem). cbn [rbind].
    destruct (label_of item) as [l|] eqn:El.
    + unfold Summarize.header_due.
      destruct (py_eq (JStr l) cur) eqn:E; cbn [negb fst snd].
      * apply py_eq_str_l in E. subst cur. apply IH, Hrest.
      * apply IH, Hrest.
    + cbn [fst snd]. apply IH, Hrest.
Qed.

(** Text that ends in a character other than whitespace stays in the
    output: no later turn of the loop removes it. *)
Lemma format_items_keeps (items : list json) :
  forall (q r : pystr) (cur : json) (st : pystr * json),
  ends_in_text q = true ->
  forallb well_formed_item items = true ->
  Summarize.format_items rt (q ++ r, cur) items = Ok st ->
  exists r', fst st = q ++ r'.
Proof.
  induction items as [|item items IH]; intros q r cur st Hq H Hrun;
    cbn [Summarize.format_items forallb] in *.
  - injection Hrun as <-. exists r. reflexivity.
  - apply andb_prop in H as [Hitem Hrest].
    rewrite (format_item_wf _ cur item Hitem) in Hrun. cbn [rbind] in Hrun.
    destruct (ends_in_text_inv _ Hq) as (p & c & -> & Hc).
    set (st1 := match label_of item with
                | Some l =>
                    if Summarize.header_due (JStr l) cur
                    then ((p ++ [c]) ++ r ++ speaker_header l, JStr l)
                    else ((p ++ [c]) ++ r, cur)
                | None => ((p ++ [c]) ++ r, cur)
                end).
    assert (Hst1 : exists r1, fst st1 = (p ++ [c]) ++ r1).
    { subst st1. destruct (label_of item) as [l|];
        [destruct (Summarize.header_due (JStr l) cur)|]; cbn [fst];
        eexists; reflexivity. }
    destruct Hst1 as [r1 Hr1].
    assert (Hstep : exists r2 cur2,
      Summarize.format_items rt ((p ++ [c]) ++ r2, cur2) items = Ok st).
    { revert Hrun.
      replace (match label_of item with
               | Some l =>
                   if Summarize.header_due (JStr l) cur
                   then (((p ++ [c]) ++ r) ++ speaker_header l, JStr l)
                   else ((p ++ [c]) ++ r, cur)
               | None => ((p ++ [c]) ++ r, cur)
               end) with st1
        by (subst st1; destruct (label_of item) as [l|];
            [destruct (Summarize.header_due (JStr l) cur)|];
            rewrite <- ?app_assoc; reflexivity).
      rewrite Hr1.
      destruct (is_punctuation item).
      - replace ((p ++ [c]) ++ r1) with (p ++ c :: r1)
          by (rewrite <- app_assoc; reflexivity).
        rewrite (rstrip_keeps p c r1 Hc).
        replace ((p ++ c :: rstrip r1) ++ content_of item ++ lit " ")
          with ((p ++ [c]) ++ rstrip r1 ++ content_of item ++ lit " ")
          by (rewrite <- !app_assoc; reflexivity).
        intros Hrun. eexists _, _. exact Hrun.
      - rewrite <- (app_assoc (p ++ [c]) r1).
        intros Hrun. eexists _, _. exact Hrun. }
    destruct Hstep as (r2 & cur2 & Hrun2).
    exact (IH (p ++ [c]) r2 cur2 st Hq Hrest Hrun2).
Qed.

End Formatter.

Lemma ends_in_text_app (a b : pystr) :
  ends_in_text b = true -> ends_in_text (a ++ b) = true.
Proof.
  intros H. destruct (ends_in_text_inv _ H) as (p & c & -> & Hc).
  unfold ends_in_text. rewrite app_assoc, List.last_last, Hc. reflexivity.
Qed.

(** The formatter on a document whose [results.items] is the list
    [items]: the loop, started on the empty text and no speaker. *)
Lemma extract_transcript_items (rt : runtime) (doc results : json)
    (items : list json) :
  getitem_key doc (lit "results") = Ok results ->
  getitem_key results (lit "items") = Ok (JArr items) ->
  Summarize.extract_transcript rt doc =
  rbind (Summarize.format_items rt ([], JNull) items) (fun st => Ok (fst st)).
Proof.
  intros H1 H2. unfold Summarize.extract_transcript.
  rewrite H1. cbn [rbind]. rewrite H2. reflexivity.
Qed.

(** C1. Scenario 1: on the document that wraps the three items (the word
    "Hello" by spk_0, a comma without speaker label, the word "there" by
    spk_0) under results.items, [extract_transcript_from_textract] returns
    a newline followed by "spk_0: Hello, there " with its trailing space. *)
Theorem scenario1_formatted (rt : runtime) (file_content : pystr) :
  json_loads rt file_content = Ok Demo.scenario1_document ->
  Summarize.extract_transcript_from_textract rt file_content
  = Ok (NL :: lit "spk_0: Hello, there ").
Proof.
  intros H. unfold Summarize.extract_transcript_from_textract.
  rewrite H. vm_compute. reflexivity.
Qed.

Lemma scenario1_formatted_witness :
  json_loads Demo.demo_runtime Demo.scenario1_text = Ok Demo.scenario1_document
  /\ Summarize.extract_transcript_from_textract Demo.demo_runtime
       Demo.scenario1_text
     = Ok (NL :: lit "spk_0: Hello, there ").
Proof.
  split; [vm_compute; reflexivity|].
  apply (scenario1_formatted Demo.demo_runtime Demo.scenario1_text).
  vm_compute. reflexivity.
Defined.

(** C2, as the claim states it, fails: a comma that carries another
    speaker's label is written after that speaker's header, not after the
    word. On the word "Hello" by spk_0 followed by a comma labelled spk_1
    the output is "\nspk_0: Hello \nspk_1:, ", which does not contain
    "Hello,". *)
Lemma punctuation_counterexample :
  forallb well_formed_item Demo.relabelled_comma_items = true
  /\ Summarize.extract_transcript Demo.demo_runtime
       (transcript_document Demo.relabelled_comma_items)
     = Ok (NL :: lit "spk_0: Hello " ++ NL :: lit "spk_1:, ")
  /\ infixb (lit "Hello" ++ lit ",")
       (NL :: lit "spk_0: Hello " ++ NL :: lit "spk_1:, ") = false.
Proof. vm_compute. repeat split. Qed.

(** C2, amended. In a sequence of items of the documented shape, let a
    punctuation item [p] come right after an item [w], let [p] carry no
    speaker label or the label of the current speaker, and let both
    contents be non-empty and end in a character other than whitespace.
    Then the text after [w] ends with the content of [w] and one space,
    the turn for [p] removes exactly that space and appends the content of
    [p] and a space, and the output of the formatter contains the content
    of [w] immediately followed by the content of [p]. *)
Theorem punctuation_attaches (rt : runtime) (doc results : json)
    (pre post : list json) (w p : json) :
  getitem_key doc (lit "results") = Ok results ->
  getitem_key results (lit "items") = Ok (JArr (pre ++ w :: p :: post)) ->
  forallb well_formed_item (pre ++ w :: p :: post) = true ->
  is_punctuation p = true ->
  ends_in_text (content_of w) = true ->
  ends_in_text (content_of p) = true ->
  (label_of p = None \/
   exists l, label_of p = Some l /\ speaker_after JNull (pre ++ [w]) = JStr l) ->
  exists (x : pystr) (cur : json) (out : pystr),
    Summarize.format_items rt ([], JNull) (pre ++ [w])
    = Ok (x ++ content_of w ++ lit " ", cur)
    /\ rstrip (x ++ content_of w ++ lit " ") = x ++ content_of w
    /\ Summarize.format_items rt ([], JNull) (pre ++ [w; p])
       = Ok ((x ++ content_of w) ++ content_of p ++ lit " ", cur)
    /\ Summarize.extract_transcript rt doc = Ok out
    /\ infixb (content_of w ++ content_of p) out = true.
Proof.
  intros Hres Hitems Hwf Hp Hcw Hcp Hlabel.
  rewrite forallb_app in Hwf. apply andb_prop in Hwf as [Hpre Hwf].
  cbn [forallb] in Hwf. apply andb_prop in Hwf as [Hw Hwf].
  apply andb_prop in Hwf as [Hpw Hpost].
  (* the run up to [w] *)
  destruct (format_items_wf rt pre [] JNull Hpre) as [out_pre Hrun_pre].
  assert (Hprew : forallb well_formed_item (pre ++ [w]) = true).
  { rewrite forallb_app, Hpre. cbn [forallb]. rewrite Hw. reflexivity. }
  destruct (format_items_wf rt (pre ++ [w]) [] JNull Hprew) as [out_w Hrun_w].
  pose proof Hrun_w as Hrun_w'.
  rewrite format_items_app, Hrun_pre in Hrun_w'.
  cbn [rbind Summarize.format_items] in Hrun_w'.
  rewrite (format_item_wf rt _ _ w Hw) in Hrun_w'. cbn [rbind] in Hrun_w'.
  injection Hrun_w' as Hout_w _.
  match type of Hout_w with ?a ++ _ ++ _ = _ => set (x := a) in Hout_w end.
  (* the turn for [p] *)
  assert (Hstep : Summarize.format_item rt (out_w, speaker_after JNull (pre ++ [w])) p
                  = Ok (rstrip out_w ++ content_of p ++ lit " ",
                        speaker_after JNull (pre ++ [w]))).
  { rewrite (format_item_wf rt _ _ p Hpw), Hp.
    destruct Hlabel as [-> | (l & -> & ->)]; [reflexivity|].
    unfold Summarize.header_due. cbn [py_eq].
    rewrite pystr_eqb_refl. reflexivity. }
  assert (Hstrip : rstrip out_w = x ++ content_of w).
  { rewrite <- Hout_w. apply rstrip_one_space, Hcw. }
  assert (Hrun_p : Summarize.format_items rt ([], JNull) (pre ++ [w; p])
                   = Ok ((x ++ content_of w) ++ content_of p ++ lit " ",
                         speaker_after JNull (pre ++ [w]))).
  { replace (pre ++ [w; p]) with ((pre ++ [w]) ++ [p])
      by (rewrite <- app_assoc; reflexivity).
    rewrite format_items_app, Hrun_w.
    cbn [rbind Summarize.format_items]. rewrite Hstep, Hstrip. reflexivity. }
  (* the rest of the run *)
  set (q := (x ++ content_of w) ++ content_of p).
  destruct (format_items_wf rt post (q ++ lit " ")
              (speaker_after JNull (pre ++ [w])) Hpost) as [out Hrun_post].
  destruct (format_items_keeps rt post q (lit " ") _ _
              (ends_in_text_app _ _ Hcp) Hpost Hrun_post) as [r' Hout].
  cbn [fst] in Hout.
  exists x, (speaker_after JNull (pre ++ [w])), out. repeat split.
  - rewrite Hrun_w, Hout_w. reflexivity.
  - rewrite Hout_w. exact Hstrip.
  - exact Hrun_p.
  - rewrite (extract_transcript_items rt doc results _ Hres Hitems).
    replace (pre ++ w :: p :: post) with ((pre ++ [w; p]) ++ post)
      by (rewrite <- app_assoc; reflexivity).
    rewrite format_items_app, Hrun_p. cbn [rbind].
    subst q. rewrite <- app_assoc in Hrun_post.
    rewrite <- !app_assoc in *. rewrite Hrun_post. reflexivity.
  - rewrite Hout. subst q.
    rewrite <- (app_assoc x (content_of w) (content_of p)).
    rewrite <- (app_assoc x (content_of w ++ content_of p) r').
    apply infixb_app.
Qed.

Lemma punctuation_attaches_witness :
  exists (x : pystr) (cur : json) (out : pystr),
    Summarize.format_items Demo.demo_runtime ([], JNull)
      ([] ++ [transcript_item (lit "pronunciation") (Some (lit "spk_0")) (lit "Hello")])
    = Ok (x ++ lit "Hello" ++ lit " ", cur)
    /\ rstrip (x ++ lit "Hello" ++ lit " ") = x ++ lit "Hello"
    /\ Summarize.format_items Demo.demo_runtime ([], JNull)
         ([] ++ [transcript_item (lit "pronunciation") (Some (lit "spk_0")) (lit "Hello");
                 transcript_item (lit "punctuation") None (lit ",")])
       = Ok ((x ++ lit "Hello") ++ lit "," ++ lit " ", cur)
    /\ Summarize.extract_transcript Demo.demo_runtime Demo.scenario1_document
       = Ok out
    /\ infixb (lit "Hello" ++ lit ",") out = true.
Proof.
  apply (punctuation_attaches Demo.demo_runtime Demo.scenario1_document
           (JObj [(lit "items", JArr Demo.scenario1_items)])
           []
           [transcript_item (lit "pronunciation") (Some (lit "spk_0")) (lit "there")]
           (transcript_item (lit "pronunciation") (Some (lit "spk_0")) (lit "Hello"))
           (transcript_item (lit "punctuation") None (lit ","))).
  - vm_compute. reflexivity.
  - vm_compute. reflexivity.
  - vm_compute. reflexivity.
  - vm_compute. reflexivity.
  - vm_compute. reflexivity.
  - vm_compute. reflexivity.
  - left. vm_compute. reflexivity.
Defined.

Section OneSpeaker.

Variable rt : runtime.
Variable l : pystr.

Lemma label_of_some (item : json) (l' : pystr) :
  label_of item = Some l' ->
  dict_get item (lit "speaker_label") = Ok (JStr l').
Proof.
  unfold label_of.
  destruct (dict_get item (lit "speaker_label")) as [[| | | |s| |]|];
    try discriminate.
  congruence.
Qed.

Lemma all_labelled_cons (item : json) (items : list json) :
  all_labelled l (item :: items) = true ->
  label_of item = Some l /\ all_labelled l items = true.
Proof.
  unfold all_labelled. cbn [forallb]. intros H.
  apply andb_prop in H as [Hitem Hrest]. split; [|exact Hrest].
  destruct (label_of item) as [l'|]; [|discriminate].
  apply pystr_eqb_eq in Hitem. congruence.
Qed.

Lemma header_not_due_same : Summarize.header_due (JStr l) (JStr l) = false.
Proof.
  unfold Summarize.header_due. cbn [py_eq].
  rewrite pystr_eqb_refl. reflexivity.
Qed.

(** While the speaker stays the same no header is written. *)
Lemma same_speaker_no_header (items : list json) :
  forall out : pystr,
  forallb well_formed_item items = true ->
  all_labelled l items = true ->
  Summarize.headers_emitted rt (out, JStr l) items = 0%nat.
Proof.
  induction items as [|item items IH]; intros out Hwf Hl;
    cbn [Summarize.headers_emitted]; [reflexivity|].
  cbn [forallb] in Hwf. apply andb_prop in Hwf as [Hitem Hrest].
  apply all_labelled_cons in Hl as [Hlabel Hl].
  rewrite (label_of_some _ _ Hlabel).
  rewrite (format_item_wf rt out (JStr l) item Hitem), Hlabel.
  cbn [snd]. rewrite header_not_due_same. cbn [fst snd].
  rewrite IH by assumption. reflexivity.
Qed.

Lemma no_newline_app (a b : pystr) :
  no_newline (a ++ b) = no_newline a && no_newline b.
Proof. apply forallb_app. Qed.

Lemma no_newline_rstrip (s : pystr) :
  no_newline s = true -> no_newline (rstrip s) = true.
Proof.
  intros H. destruct (rstrip_split s) as (t & Hs & _).
  rewrite Hs, no_newline_app in H. apply andb_prop in H as [H _]. exact H.
Qed.

(** While the speaker stays the same, a text that ends in a character
    stays at the head of the output, and what follows it has no newline if
    the contents have none. *)
Lemma same_speaker_run (items : list json) :
  forall (q r : pystr) (st : pystr * json),
  ends_in_text q = true ->
  no_newline r = true ->
  forallb well_formed_item items = true ->
  all_labelled l items = true ->
  forallb (fun item => no_newline (content_of item)) items = true ->
  Summarize.format_items rt (q ++ r, JStr l) items = Ok st ->
  exists r', fst st = q ++ r' /\ no_newline r' = true.
Proof.
  induction items as [|item items IH]; intros q r st Hq Hr Hwf Hl Hnl Hrun;
    cbn [Summarize.format_items forallb] in *.
  - injection Hrun as <-. exists r. split; [reflexivity|exact Hr].
  - apply andb_prop in Hwf as [Hitem Hrest].
    apply andb_prop in Hnl as [Hc Hnl].
    apply all_labelled_cons in Hl as [Hlabel Hl].
    rewrite (format_item_wf rt _ (JStr l) item Hitem), Hlabel in Hrun.
    rewrite header_not_due_same in Hrun. cbn [rbind fst snd] in Hrun.
    destruct (ends_in_text_inv _ Hq) as (p & c & Hqeq & Hspace).
    assert (Hnext : exists r2,
      (if is_punctuation item then rstrip (q ++ r) else q ++ r)
      ++ content_of item ++ lit " " = q ++ r2 /\ no_newline r2 = true).
    { destruct (is_punctuation item).
      - exists (rstrip r ++ content_of item ++ lit " "). split.
        + subst q. rewrite <- (app_assoc p [c] r). cbn [app].
          rewrite (rstrip_keeps p c r Hspace).
          rewrite <- !app_assoc. reflexivity.
        + rewrite !no_newline_app, (no_newline_rstrip _ Hr), Hc. reflexivity.
      - exists (r ++ content_of item ++ lit " "). split.
        + rewrite <- app_assoc. reflexivity.
        + rewrite !no_newline_app, Hr, Hc. reflexivity. }
    destruct Hnext as (r2 & Heq & Hr2). rewrite Heq in Hrun.
    exact (IH q r2 st Hq Hr2 Hrest Hl Hnl Hrun).
Qed.

Lemma occurrences_no_newline (x s : pystr) :
  no_newline s = true -> occurrences (NL :: x) s = 0%nat.
Proof.
  induction s as [|c s IH]; cbn [occurrences prefixb no_newline forallb];
    [reflexivity|].
  intros H. apply andb_prop in H as [Hc Hs].
  apply negb_true_iff in Hc. rewrite N.eqb_sym in Hc. rewrite Hc.
  cbn [andb]. apply IH, Hs.
Qed.

End OneSpeaker.

Lemma occurrences_header (l t : pystr) :
  no_newline l = true ->
  no_newline t = true ->
  occurrences (speaker_header l) (speaker_header l ++ t) = 1%nat.
Proof.
  intros Hl Ht. unfold speaker_header.
  pose proof (prefixb_app (NL :: l ++ lit ": ") t) as Hp.
  cbn [app] in Hp.
  change ((NL :: l ++ lit ": ") ++ t) with (NL :: (l ++ lit ": ") ++ t).
  cbn [occurrences]. rewrite Hp.
  rewrite occurrences_no_newline; [reflexivity|].
  rewrite !no_newline_app, Hl, Ht. reflexivity.
Qed.

(** C3, as the claim states it, fails at both ends. On the empty sequence
    the formatter writes no header at all. On the single comma labelled
    spk_0 the header is written, and the turn for the comma then strips its
    trailing space: the output is "\nspk_0:, ", in which the prefix
    "\nspk_0: " does not occur. *)
Lemma one_header_counterexample :
  (all_labelled (lit "spk_0") [] = true
   /\ Summarize.extract_transcript Demo.demo_runtime (transcript_document [])
      = Ok []
   /\ Summarize.headers_emitted Demo.demo_runtime ([], JNull) [] = 0%nat
   /\ occurrences (speaker_header (lit "spk_0")) [] = 0%nat)
  /\ (all_labelled (lit "spk_0") Demo.leading_comma_items = true
      /\ forallb well_formed_item Demo.leading_comma_items = true
      /\ Summarize.extract_transcript Demo.demo_runtime
           (transcript_document Demo.leading_comma_items)
         = Ok (NL :: lit "spk_0:, ")
      /\ occurrences (speaker_header (lit "spk_0")) (NL :: lit "spk_0:, ")
         = 0%nat).
Proof. vm_compute. repeat split. Qed.

(** C3, amended. On a non-empty sequence of items of the documented shape
    that all carry the same speaker label, the loop of the formatter takes
    the header branch exactly once, and the formatter returns a text. When
    moreover the first item is not a punctuation mark, its content is not
    empty and ends in a character other than whitespace, and neither the
    label nor any content holds a newline, the prefix newline, label, colon,
    space occurs exactly once in that text. *)
Theorem one_header_per_speaker (rt : runtime) (doc results : json)
    (first : json) (rest : list json) (l : pystr) :
  getitem_key doc (lit "results") = Ok results ->
  getitem_key results (lit "items") = Ok (JArr (first :: rest)) ->
  forallb well_formed_item (first :: rest) = true ->
  all_labelled l (first :: rest) = true ->
  Summarize.headers_emitted rt ([], JNull) (first :: rest) = 1%nat
  /\ exists out,
       Summarize.extract_transcript rt doc = Ok out
       /\ (is_punctuation first = false ->
           ends_in_text (content_of first) = true ->
           no_newline l = true ->
           forallb (fun item => no_newline (content_of item)) (first :: rest)
           = true ->
           occurrences (speaker_header l) out = 1%nat).
Proof.
  intros Hres Hitems Hwf Hl.
  pose proof Hwf as Hall.
  cbn [forallb] in Hwf. apply andb_prop in Hwf as [Hfirst Hrest].
  apply all_labelled_cons in Hl as [Hlabel Hl].
  assert (Hdue : Summarize.header_due (JStr l) JNull = true) by reflexivity.
  split.
  - cbn [Summarize.headers_emitted].
    rewrite (label_of_some _ _ Hlabel).
    rewrite (format_item_wf rt [] JNull first Hfirst), Hlabel.
    cbn [snd]. rewrite Hdue. cbn [fst snd].
    rewrite (same_speaker_no_header rt l rest _ Hrest Hl). reflexivity.
  - destruct (format_items_wf rt (first :: rest) [] JNull Hall) as [out Hrun].
    exists out. split.
    + rewrite (extract_transcript_items rt doc results _ Hres Hitems), Hrun.
      reflexivity.
    + intros Hword Htext Hnl Hcontents.
      cbn [forallb] in Hcontents.
      apply andb_prop in Hcontents as [Hc1 Hcontents].
      cbn [Summarize.format_items] in Hrun.
      rewrite (format_item_wf rt [] JNull first Hfirst), Hlabel in Hrun.
      rewrite Hdue, Hword in Hrun. cbn [rbind fst snd app] in Hrun.
      replace (speaker_header l ++ content_of first ++ lit " ")
        with ((speaker_header l ++ content_of first) ++ lit " ") in Hrun
        by (rewrite <- app_assoc; reflexivity).
      destruct (same_speaker_run rt l rest _ _ _
                  (ends_in_text_app _ _ Htext) (eq_refl : no_newline (lit " ") = true)
                  Hrest Hl Hcontents Hrun) as (r' & Hout & Hr').
      cbn [fst] in Hout. rewrite Hout, <- app_assoc.
      apply occurrences_header; [exact Hnl|].
      rewrite no_newline_app, Hc1, Hr'. reflexivity.
Qed.

Lemma one_header_per_speaker_witness :
  Summarize.headers_emitted Demo.demo_runtime ([], JNull)
    [transcript_item (lit "pronunciation") (Some (lit "spk_0")) (lit "Hello");
     transcript_item (lit "punctuation") (Some (lit "spk_0")) (lit ".")]
  = 1%nat
  /\ exists out,
       Summarize.extract_transcript Demo.demo_runtime
         (transcript_document
            [transcript_item (lit "pronunciation") (Some (lit "spk_0")) (lit "Hello");
             transcript_item (lit "punctuation") (Some (lit "spk_0")) (lit ".")])
       = Ok out
       /\ occurrences (speaker_header (lit "spk_0")) out = 1%nat.
Proof.
  destruct (one_header_per_speaker Demo.demo_runtime
              (transcript_document
                 [transcript_item (lit "pronunciation") (Some (lit "spk_0")) (lit "Hello");
                  transcript_item (lit "punctuation") (Some (lit "spk_0")) (lit ".")])
              (JObj [(lit "items",
                      JArr [transcript_item (lit "pronunciation") (Some (lit "spk_0")) (lit "Hello");
                            transcript_item (lit "punctuation") (Some (lit "spk_0")) (lit ".")])])
              (transcript_item (lit "pronunciation") (Some (lit "spk_0")) (lit "Hello"))
              [transcript_item (lit "punctuation") (Some (lit "spk_0")) (lit ".")]
              (lit "spk_0")
              eq_refl eq_refl eq_refl eq_refl) as (Hcount & out & Hout & Hocc).
  split; [exact Hcount|].
  exists out. split; [exact Hout|].
  apply Hocc; vm_compute; reflexivity.
Defined.

(* ================================================================== *)
(** ** The transcription handler                                       *)
(* ================================================================== *)

Lemma record_field_s3_event (bucket key : json) :
  record_field (s3_event bucket key) (lit "bucket") (lit "name") = Ok bucket
  /\ record_field (s3_event bucket key) (lit "object") (lit "key") = Ok key.
Proof. split; reflexivity. Qed.



(** C5. When the key of the record is "dialog.mp3", the destination bucket
    is in the environment and the service accepts the job, the
    transcription handler reads the variable, sends exactly one job-start
    request and returns status 200. The request names the media
    s3://<bucket>/dialog.mp3, the format mp3, the language en-US, speaker
    labels for at most 2 speakers, the bucket of the environment variable
    and the key <job name>-transcript.json, where the job name is
    "transcription-job-" followed by the identifier drawn for this
    invocation. *)
Theorem transcribe_submits_job (rt : runtime) (event bucket : json)
    (w : world) (output_bucket : pystr) :
  record_field event (lit "bucket") (lit "name") = Ok bucket ->
  record_field event (lit "object") (lit "key") = Ok (JStr (lit "dialog.mp3")) ->
  environ w !! lit "S3BUCKETNAMETEXT" = Some output_bucket ->
  let job_name := lit "transcription-job-" ++ uuid4 rt (uuids_drawn w) in
  let request :=
    {| TranscriptionJobName := job_name;
       MediaFileUri := lit "s3://" ++ py_str rt bucket ++ lit "/" ++ lit "dialog.mp3";
       MediaFormat := lit "mp3";
       LanguageCode := lit "en-US";
       OutputBucketName := output_bucket;
       OutputKey := job_name ++ lit "-transcript.json";
       ShowSpeakerLabels := true;
       MaxSpeakerLabels := 2 |} in
  service_error rt (trace w ++ [EnvironRead (lit "S3BUCKETNAMETEXT")])
    (StartTranscriptionJob request) = None ->
  exists w',
    Transcribe.lambda_handler rt event w
    = (Ok {| statusCode := 200;
             body := json_dumps rt
                       (JStr (lit "Submitted transcription job for "
                              ++ lit "dialog.mp3" ++ lit " from bucket "
                              ++ py_str rt bucket ++ lit ".")) |}, w')
    /\ trace w'
       = trace w ++ [EnvironRead (lit "S3BUCKETNAMETEXT");
                     StartTranscriptionJob request]
    /\ uuids_drawn w' = S (uuids_drawn w)
    /\ s3_objects w' = s3_objects w.
Proof.
  intros Hbucket Hkey Henv job_name request Haccept.
  unfold Transcribe.lambda_handler, Transcribe.submit_job. run_monad.
  rewrite Hbucket, Hkey.
  replace (py_eq (JStr (lit "dialog.mp3")) (JStr (lit "dialog.mp3")))
    with true by (symmetry; apply py_eq_str_r; reflexivity).
  cbn [negb]. rewrite Henv.
  change (Transcribe.job_request rt bucket (JStr (lit "dialog.mp3"))
            (lit "transcription-job-" ++ uuid4 rt (uuids_drawn w)) output_bucket)
    with request.
  cbn [environ s3_objects files uuids_drawn trace stdout].
  rewrite Haccept.
  eexists. split; [reflexivity|].
  cbn [environ s3_objects files uuids_drawn trace stdout].
  rewrite <- app_assoc. repeat split.
Qed.

Lemma transcribe_submits_job_witness :
  exists w',
    fst (Transcribe.lambda_handler Demo.demo_runtime
           (s3_event (JStr (lit "audio-bucket")) (JStr (lit "dialog.mp3")))
           Demo.configured_world)
    = Ok {| statusCode := 200;
            body := json_dumps Demo.demo_runtime
                      (JStr (lit "Submitted transcription job for dialog.mp3 from bucket audio-bucket.")) |}
    /\ snd (Transcribe.lambda_handler Demo.demo_runtime
              (s3_event (JStr (lit "audio-bucket")) (JStr (lit "dialog.mp3")))
              Demo.configured_world) = w'
    /\ length (trace w') = 2%nat.
Proof.
  destruct (transcribe_submits_job Demo.demo_runtime
              (s3_event (JStr (lit "audio-bucket")) (JStr (lit "dialog.mp3")))
              (JStr (lit "audio-bucket")) Demo.configured_world
              (lit "text-bucket") eq_refl eq_refl eq_refl eq_refl)
    as (w' & Hrun & Htrace & _).
  exists w'. rewrite Hrun, Htrace. repeat split.
Defined.

(** C4, as the claim states it, fails: the lookup of the variable is made
    inside the [try] block, so its [KeyError] is caught. On the event for
    "dialog.mp3", in a world whose environment is empty, the handler
    returns a response, with status 500, and raises nothing. *)
Lemma missing_variable_counterexample :
  environ Demo.unconfigured_world !! lit "S3BUCKETNAMETEXT" = None
  /\ fst (Transcribe.lambda_handler Demo.demo_runtime
            (s3_event (JStr (lit "audio-bucket")) (JStr (lit "dialog.mp3")))
            Demo.unconfigured_world)
     = Ok {| statusCode := 500;
             body := json_dumps Demo.demo_runtime
                       (JStr (lit "Error occurred: 'S3BUCKETNAMETEXT'")) |}.
Proof. vm_compute. split; reflexivity. Qed.

(** C4, amended. When the key of the record is "dialog.mp3" and the
    variable S3BUCKETNAMETEXT is absent from the environment, the lookup
    error is caught by the handler: it returns status 500 whose body is the
    JSON encoding of "Error occurred: 'S3BUCKETNAMETEXT'", and no job-start
    request is sent (the read of the environment is the only call). *)
Theorem transcribe_missing_variable (rt : runtime) (event bucket : json)
    (w : world) :
  record_field event (lit "bucket") (lit "name") = Ok bucket ->
  record_field event (lit "object") (lit "key") = Ok (JStr (lit "dialog.mp3")) ->
  environ w !! lit "S3BUCKETNAMETEXT" = None ->
  exists w',
    Transcribe.lambda_handler rt event w
    = (Ok {| statusCode := 500;
             body := json_dumps rt
                       (JStr (lit "Error occurred: 'S3BUCKETNAMETEXT'")) |}, w')
    /\ trace w' = trace w ++ [EnvironRead (lit "S3BUCKETNAMETEXT")]
    /\ s3_objects w' = s3_objects w.
Proof.
  intros Hbucket Hkey Henv.
  unfold Transcribe.lambda_handler, Transcribe.submit_job. run_monad.
  rewrite Hbucket, Hkey.
  replace (py_eq (JStr (lit "dialog.mp3")) (JStr (lit "dialog.mp3")))
    with true by (symmetry; apply py_eq_str_r; reflexivity).
  cbn [negb]. rewrite Henv.
  eexists. split; [reflexivity|].
  cbn [environ s3_objects files uuids_drawn trace stdout]. split; reflexivity.
Qed.

Lemma transcribe_missing_variable_witness :
  exists w',
    Transcribe.lambda_handler Demo.demo_runtime
      (s3_event (JStr (lit "audio-bucket")) (JStr (lit "dialog.mp3")))
      Demo.unconfigured_world
    = (Ok {| statusCode := 500;
             body := json_dumps Demo.demo_runtime
                       (JStr (lit "Error occurred: 'S3BUCKETNAMETEXT'")) |}, w')
    /\ trace w'
       = trace Demo.unconfigured_world ++ [EnvironRead (lit "S3BUCKETNAMETEXT")]
    /\ s3_objects w' = s3_objects Demo.unconfigured_world.
Proof.
  apply (transcribe_missing_variable Demo.demo_runtime
           (s3_event (JStr (lit "audio-bucket")) (JStr (lit "dialog.mp3")))
           (JStr (lit "audio-bucket")) Demo.unconfigured_world).
  - reflexivity.
  - reflexivity.
  - vm_compute. reflexivity.
Defined.

(* ================================================================== *)
(** ** Events without the record structure                             *)
(* ================================================================== *)

(** An event that lacks the record structure makes one of the two lookups
    of the first lines fail, with a key or index error. *)
Lemma lacking_event_lookup (event : json) :
  lacks_record_structure event ->
  exists e,
    is_lookup_error e = true
    /\ (record_field event (lit "bucket") (lit "name") = Raise e
        \/ exists bucket,
             record_field event (lit "bucket") (lit "name") = Ok bucket
             /\ record_field event (lit "object") (lit "key") = Raise e).
Proof.
  intros H. unfold record_field.
  destruct H; cbn [getitem_key getitem_0 rbind];
    repeat match goal with
           | Hl : lookup_key ?k ?kvs = _ |- context [lookup_key ?k ?kvs] =>
               rewrite Hl; cbn [getitem_key getitem_0 rbind]
           end.
  - exists (key_error (lit "Records")). split; [reflexivity|]. left. reflexivity.
  - eexists. split; [|left; reflexivity]. reflexivity.
  - exists (key_error (lit "s3")). split; [reflexivity|]. left. reflexivity.
  - exists (key_error (lit "bucket")). split; [reflexivity|]. left. reflexivity.
  - exists (key_error (lit "name")). split; [reflexivity|]. left. reflexivity.
  - exists (key_error (lit "object")). split; [reflexivity|].
    right. exists name. split; reflexivity.
  - exists (key_error (lit "key")). split; [reflexivity|].
    right. exists name. split; reflexivity.
Qed.

(** C10. On an event that lacks the record structure (no "Records" entry,
    an empty list of records, a first record without "s3", no "bucket" or
    no "name" in it, no "object" or no "key" in it), each of the two
    handlers raises a key or index error to its caller: it returns no
    response, and it has done nothing before, the world is as it was. *)
Theorem malformed_event_raises (event : json) :
  lacks_record_structure event ->
  exists e,
    is_lookup_error e = true
    /\ forall (rt : runtime) (w : world),
         Transcribe.lambda_handler rt event w = (Raise e, w)
         /\ Summarize.lambda_handler rt event w = (Raise e, w).
Proof.
  intros H. destruct (lacking_event_lookup event H) as (e & He & Hlookup).
  exists e. split; [exact He|]. intros rt w.
  unfold Transcribe.lambda_handler, Summarize.lambda_handler. run_monad.
  destruct Hlookup as [-> | (bucket & -> & ->)]; split; reflexivity.
Qed.

Lemma malformed_event_raises_witness :
  exists e,
    is_lookup_error e = true
    /\ forall (rt : runtime) (w : world),
         Transcribe.lambda_handler rt (JObj [(lit "Records", JArr [])]) w
         = (Raise e, w)
         /\ Summarize.lambda_handler rt (JObj [(lit "Records", JArr [])]) w
            = (Raise e, w).
Proof.
  apply (malformed_event_raises (JObj [(lit "Records", JArr [])])).
  apply empty_records. reflexivity.
Defined.

(* ================================================================== *)
(** ** The summarization handler                                       *)
(* ================================================================== *)



Section WritesNothing.

Variable rt : runtime.

Lemma writes_nothing_ret {A} (a : A) : writes_nothing (ret a).
Proof. intros w r w' H. injection H as _ <-. split; reflexivity. Qed.

Lemma writes_nothing_lift {A} (x : result A) : writes_nothing (lift x).
Proof. intros w r w' H. injection H as _ <-. split; reflexivity. Qed.

Lemma writes_nothing_print (s : pystr) : writes_nothing (print s).
Proof. intros w r w' H. injection H as _ <-. split; reflexivity. Qed.

Lemma writes_nothing_bind {A B} (c : M A) (k : A -> M B) :
  writes_nothing c -> (forall a, writes_nothing (k a)) ->
  writes_nothing (bind c k).
Proof.
  intros Hc Hk w r w' H. unfold bind in H.
  destruct (c w) as [[a|e] w1] eqn:E.
  - destruct (Hc _ _ _ E) as [Hs Hp]. destruct (Hk a _ _ _ H) as [Hs' Hp'].
    split; congruence.
  - injection H as _ <-. exact (Hc _ _ _ E).
Qed.

Lemma puts_log (c : call) (w : world) :
  is_put c = false -> puts (trace (log c w)) = puts (trace w).
Proof.
  intros H. unfold log, puts. cbn [trace].
  rewrite List.filter_app. cbn [List.filter]. rewrite H.
  apply app_nil_r.
Qed.

Lemma writes_nothing_send (c : call) :
  is_put c = false -> writes_nothing (send rt c).
Proof.
  intros Hc w r w' H. unfold send in H.
  destruct (service_error rt (trace w) c); injection H as _ <-;
    (split; [reflexivity|apply puts_log, Hc]).
Qed.

Lemma writes_nothing_open_read (path : pystr) : writes_nothing (open_read path).
Proof.
  intros w r w' H. unfold open_read in H.
  destruct (files w !! path); injection H as _ <-;
    (split; [reflexivity|apply puts_log; reflexivity]).
Qed.

Lemma writes_nothing_get_object (bucket key : json) :
  writes_nothing (get_object_body rt bucket key).
Proof.
  unfold get_object_body, param_validation_error.
  destruct bucket; try (intros w r w' H; injection H as _ <-; split; reflexivity).
  destruct key; try (intros w r w' H; injection H as _ <-; split; reflexivity).
  apply writes_nothing_bind; [apply writes_nothing_send; reflexivity|].
  intros _ w r w' H.
  destruct (s3_objects w !! (s, s0)); injection H as _ <-; split; reflexivity.
Qed.

Lemma writes_nothing_invoke_model (kwargs : invoke_kwargs) :
  writes_nothing (invoke_model rt kwargs).
Proof.
  intros w r w' H. unfold invoke_model in H.
  destruct (send rt (InvokeModel kwargs) w) as [[u|e] w1] eqn:E;
    injection H as _ <-;
    exact (writes_nothing_send (InvokeModel kwargs) eq_refl _ _ _ E).
Qed.

(** Nothing of what the [try] block does before the write touches the
    object store. *)
Lemma writes_nothing_read_and_summarise (bucket key : json) :
  writes_nothing (Summarize.read_and_summarise rt bucket key).
Proof.
  unfold Summarize.read_and_summarise, Summarize.bedrock_summarisation,
    Summarize.render_prompt.
  repeat first
    [ apply writes_nothing_bind; [|intros ?]
    | apply writes_nothing_get_object
    | apply writes_nothing_lift
    | apply writes_nothing_print
    | apply writes_nothing_open_read
    | apply writes_nothing_invoke_model ].
Qed.

End WritesNothing.

(** What the write does: refused before it is sent, refused by the
    service, or done, in which case the object is replaced whole. *)
Lemma put_object_outcome (rt : runtime) (bucket : json) (key : pystr)
    (body : json) (content_type : pystr) (w : world) (r : result unit)
    (w' : world) :
  put_object rt bucket key body content_type w = (r, w') ->
  (exists e, r = Raise e /\ s3_objects w' = s3_objects w)
  \/ (exists b text,
        bucket = JStr b /\ body = JStr text /\ r = Ok tt
        /\ s3_objects w'
           = <[(b, key) := {| obj_body := utf8_encode rt text;
                              obj_content_type := content_type |}]>
               (s3_objects w)
        /\ trace w' = trace w ++ [PutObject b key text content_type]
        /\ stdout w' = stdout w).
Proof.
  unfold put_object, param_validation_error.
  destruct bucket as [| | | |b| |];
    try (intros H; injection H as <- <-; left; eexists; split; reflexivity).
  destruct body as [| | | |text| |];
    try (intros H; injection H as <- <-; left; eexists; split; reflexivity).
  run_monad.
  destruct (service_error rt (trace w) (PutObject b key text content_type));
    intros H; injection H as <- <-.
  - left. eexists. split; reflexivity.
  - right. exists b, text. repeat split.
Qed.

(** C9. In an accepted invocation of the summarization handler, an
    exception raised by anything the [try] block does before the write
    (the fetch, the decoding, the parsing and formatting of the transcript,
    the rendering of the prompt, the invocation of the model) is caught:
    the handler returns status 500 with the JSON encoding of "Error
    occurred: " followed by the text of the exception, the object store is
    left as it was and no write request is sent. More generally, whatever
    happens, the handler returns either a status 500 with the store as it
    was, or a status 200 after one write request that replaces the whole
    object at results.txt in the bucket of the event by the summary. *)
Theorem summarize_failure_leaves_store (rt : runtime)
    (event bucket key : json) (w : world) :
  record_field event (lit "bucket") (lit "name") = Ok bucket ->
  record_field event (lit "object") (lit "key") = Ok key ->
  py_contains (lit "-transcript.json") key = Ok true ->
  (forall (e : exn) (w1 : world),
     Summarize.read_and_summarise rt bucket key w = (Raise e, w1) ->
     exists w',
       Summarize.lambda_handler rt event w
       = (Ok {| statusCode := 500;
                body := json_dumps rt
                          (JStr (lit "Error occurred: " ++ exn_str e)) |}, w')
       /\ s3_objects w' = s3_objects w
       /\ puts (trace w') = puts (trace w))
  /\ (forall (r : result response) (w' : world),
        Summarize.lambda_handler rt event w = (r, w') ->
        (exists e,
           r = Ok {| statusCode := 500;
                     body := json_dumps rt
                               (JStr (lit "Error occurred: " ++ exn_str e)) |}
           /\ s3_objects w' = s3_objects w)
        \/ (exists b text,
              bucket = JStr b
              /\ r = Ok {| statusCode := 200;
                           body := json_dumps rt
                                     (JStr (Summarize.success_message rt bucket
                                              key (JStr text))) |}
              /\ s3_objects w'
                 = <[(b, lit "results.txt") :=
                       {| obj_body := utf8_encode rt text;
                          obj_content_type := lit "text/plain" |}]>
                     (s3_objects w)
              /\ puts (trace w')
                 = puts (trace w)
                   ++ [PutObject b (lit "results.txt") text (lit "text/plain")])).
Proof.
  intros Hbucket Hkey Hin.
  unfold Summarize.lambda_handler, Summarize.summarise_and_store,
    Summarize.error_response.
  run_monad. rewrite Hbucket, Hkey, Hin. cbn [negb].
  split.
  - intros e w1 E. rewrite E.
    destruct (writes_nothing_read_and_summarise rt bucket key _ _ _ E)
      as [Hstore Hputs].
    eexists. split; [reflexivity|].
    cbn [environ s3_objects files uuids_drawn trace stdout].
    split; assumption.
  - intros r w'.
    destruct (Summarize.read_and_summarise rt bucket key w)
      as [[summary|e] w1] eqn:E;
      destruct (writes_nothing_read_and_summarise rt bucket key _ _ _ E)
        as [Hstore Hputs].
    + destruct (put_object rt bucket (lit "results.txt") summary
                  (lit "text/plain") w1) as [r2 w2] eqn:E2.
      destruct (put_object_outcome rt _ _ _ _ _ _ _ E2)
        as [(e & -> & Hs) | (b & text & -> & -> & -> & Hs & Ht & _)];
        intros H; injection H as <- <-;
        cbn [environ s3_objects files uuids_drawn trace stdout].
      * left. exists e. split; [reflexivity|]. congruence.
      * right. exists b, text. repeat split.
        -- congruence.
        -- rewrite Ht. unfold puts. rewrite List.filter_app.
           cbn [List.filter is_put]. fold (puts (trace w1)).
           rewrite Hputs. reflexivity.
    + intros H. injection H as <- <-.
      cbn [environ s3_objects files uuids_drawn trace stdout].
      left. exists e. split; [reflexivity|exact Hstore].
Qed.

Lemma summarize_failure_leaves_store_witness :
  exists w',
    Summarize.lambda_handler Demo.demo_runtime Demo.transcript_event
      Demo.world_without_template
    = (Ok {| statusCode := 500;
             body := json_dumps Demo.demo_runtime
                       (JStr (lit "Error occurred: [Errno 2] No such file or directory: 'prompt_template.txt'")) |},
       w')
    /\ s3_objects w' = s3_objects Demo.world_without_template
    /\ puts (trace w') = puts (trace Demo.world_without_template).
Proof.
  destruct (summarize_failure_leaves_store Demo.demo_runtime
              Demo.transcript_event
              (JStr (lit "text-bucket")) (JStr (lit "job123-transcript.json"))
              Demo.world_without_template eq_refl eq_refl eq_refl)
    as [Hfail _].
  apply (Hfail (FileNotFoundError
                  (lit "[Errno 2] No such file or directory: 'prompt_template.txt'"))
               (snd (Summarize.read_and_summarise Demo.demo_runtime
                       (JStr (lit "text-bucket"))
                       (JStr (lit "job123-transcript.json"))
                       Demo.world_without_template))).
  vm_compute. reflexivity.
Defined.

Section PromptTemplate.

Import Template.

Lemma infixb_inside (p a s b : pystr) :
  infixb p s = true -> infixb p (a ++ s ++ b) = true.
Proof.
  intros H. destruct (infixb_inv _ _ H) as (x & y & ->).
  replace (a ++ (x ++ p ++ y) ++ b) with ((a ++ x) ++ p ++ (y ++ b))
    by (rewrite <- !app_assoc; reflexivity).
  apply infixb_app.
Qed.

(** The text of a template holds the transcript where the template has
    the placeholder of the transcript. *)
Lemma substitute_transcript (pieces : list piece) (transcript : pystr)
    (topics : list pystr) :
  existsb is_transcript_placeholder pieces = true ->
  exists a b, substitute pieces transcript topics = a ++ transcript ++ b.
Proof.
  induction pieces as [|p pieces IH]; cbn [existsb]; [discriminate|].
  destruct p as [text| |]; cbn [is_transcript_placeholder orb substitute].
  - intros H. destruct (IH H) as (a & b & ->).
    exists (text ++ a), b. rewrite <- app_assoc. reflexivity.
  - intros _. exists [], (substitute pieces transcript topics). reflexivity.
  - intros H. destruct (IH H) as (a & b & ->).
    exists (topics_text topics ++ a), b. rewrite <- app_assoc. reflexivity.
Qed.

Lemma substitute_topics (pieces : list piece) (transcript : pystr)
    (topics : list pystr) :
  existsb is_topics_placeholder pieces = true ->
  exists a b,
    substitute pieces transcript topics = a ++ topics_text topics ++ b.
Proof.
  induction pieces as [|p pieces IH]; cbn [existsb]; [discriminate|].
  destruct p as [text| |]; cbn [is_topics_placeholder orb substitute].
  - intros H. destruct (IH H) as (a & b & ->).
    exists (text ++ a), b. rewrite <- app_assoc. reflexivity.
  - intros H. destruct (IH H) as (a & b & ->).
    exists (transcript ++ a), b. rewrite <- app_assoc. reflexivity.
  - intros _. exists [], (substitute pieces transcript topics). reflexivity.
Qed.

(** The prompt made from a template with both placeholders holds the
    transcript and each of the three topics. *)
Lemma prompt_holds_data (pieces : list piece) (transcript : pystr) :
  has_both_placeholders pieces = true ->
  infixb transcript (substitute pieces transcript fixed_topics) = true
  /\ infixb (lit "charges") (substitute pieces transcript fixed_topics) = true
  /\ infixb (lit "location") (substitute pieces transcript fixed_topics) = true
  /\ infixb (lit "availability") (substitute pieces transcript fixed_topics)
     = true.
Proof.
  unfold has_both_placeholders. intros H.
  apply andb_prop in H as [Htranscript Htopics].
  split.
  - destruct (substitute_transcript pieces transcript fixed_topics Htranscript)
      as (a & b & ->).
    apply infixb_app.
  - destruct (substitute_topics pieces transcript fixed_topics Htopics)
      as (a & b & ->).
    repeat split; apply infixb_inside; vm_compute; reflexivity.
Qed.

End PromptTemplate.

(** C6. Let the key of the record contain "-transcript.json", the object
    be fetched, decoded and formatted into a dialogue, the template file
    be a template with a placeholder for the transcript and one for the
    topics, which the renderer fills with the data it is given, and the
    model answer with a summary. Then the summarization handler renders a
    prompt that contains the dialogue and the three topics charges,
    location and availability; it invokes the model exactly once, with the
    fixed model identifier and a body that is the JSON encoding of one user
    message holding that prompt and of the inference configuration; and it
    sends exactly one write request, for the key results.txt of the bucket
    of the event, with the summary as body. Its calls are, in order, the
    fetch, the read of the template, the invocation and the write. When the
    service accepts the write, the object holds the summary and the handler
    returns status 200. *)
Theorem summarize_writes_result (rt : runtime) (event : json)
    (bucket key : pystr) (w : world) (object : s3_object)
    (file_content dialogue : pystr) (pieces : list Template.piece)
    (summary : pystr) :
  record_field event (lit "bucket") (lit "name") = Ok (JStr bucket) ->
  record_field event (lit "object") (lit "key") = Ok (JStr key) ->
  infixb (lit "-transcript.json") key = true ->
  service_error rt (trace w) (GetObject bucket key) = None ->
  s3_objects w !! (bucket, key) = Some object ->
  utf8_decode rt (obj_body object) = Ok file_content ->
  Summarize.extract_transcript_from_textract rt file_content = Ok dialogue ->
  files w !! lit "prompt_template.txt" = Some (Template.template_source pieces) ->
  Template.has_both_placeholders pieces = true ->
  let prompt := Template.substitute pieces dialogue Template.fixed_topics in
  jinja_render rt (Template.template_source pieces)
    (JObj [(lit "transcript", JStr dialogue);
           (lit "topics",
            JArr [JStr (lit "charges"); JStr (lit "location");
                  JStr (lit "availability")])]) = Ok prompt ->
  let calls :=
    trace w ++ [GetObject bucket key; FileRead (lit "prompt_template.txt")] in
  let kwargs :=
    {| modelId := lit "us.amazon.nova-lite-v1:0";
       contentType := lit "application/json";
       accept := lit "*/*";
       body_json :=
         json_dumps rt
           (JObj [(lit "messages",
                   JArr [JObj [(lit "role", JStr (lit "user"));
                               (lit "content",
                                JArr [JObj [(lit "text", JStr prompt)]])]]);
                  (lit "inferenceConfig",
                   JObj [(lit "maxTokens", JInt 2048);
                         (lit "temperature", JInt 0);
                         (lit "topP", JFloat 8106479329266893 (-53))])]) |} in
  let write :=
    PutObject bucket (lit "results.txt") summary (lit "text/plain") in
  service_error rt calls (InvokeModel kwargs) = None ->
  Summarize.parse_summary rt (bedrock_reply rt calls kwargs)
  = Ok (JStr summary) ->
  exists (r : result response) (w' : world),
    Summarize.lambda_handler rt event w = (r, w')
    /\ trace w' = calls ++ [InvokeModel kwargs; write]
    /\ infixb dialogue prompt = true
    /\ infixb (lit "charges") prompt = true
    /\ infixb (lit "location") prompt = true
    /\ infixb (lit "availability") prompt = true
    /\ (service_error rt (calls ++ [InvokeModel kwargs]) write = None ->
        r = Ok {| statusCode := 200;
                  body := json_dumps rt
                            (JStr (lit "Successfully summarized " ++ key
                                   ++ lit " from bucket " ++ bucket
                                   ++ lit ". Summary: " ++ summary)) |}
        /\ s3_objects w'
           = <[(bucket, lit "results.txt") :=
                 {| obj_body := utf8_encode rt summary;
                    obj_content_type := lit "text/plain" |}]>
               (s3_objects w)).
Proof.
  intros Hbucket Hkey Hin Hget Hobject Hdecode Hformat Hfile Hplaceholders
    prompt Hrender calls kwargs write Hinvoke Hsummary.
  destruct (prompt_holds_data pieces dialogue Hplaceholders)
    as (Hdialogue & Hcharges & Hlocation & Havailability).
  unfold Summarize.lambda_handler, Summarize.summarise_and_store,
    Summarize.read_and_summarise, Summarize.bedrock_summarisation,
    Summarize.render_prompt, get_object_body, open_read, invoke_model,
    put_object, Summarize.success_message.
  run_monad. rewrite Hbucket, Hkey. cbn [py_contains py_str].
  rewrite Hin. cbn [negb].
  rewrite Hget. cbn [environ s3_objects files uuids_drawn trace stdout].
  rewrite Hobject, Hdecode, Hformat.
  cbn [environ s3_objects files uuids_drawn trace stdout].
  rewrite Hfile.
  change (Summarize.template_data dialogue)
    with (JObj [(lit "transcript", JStr dialogue);
                (lit "topics",
                 JArr [JStr (lit "charges"); JStr (lit "location");
                       JStr (lit "availability")])]).
  rewrite Hrender.
  cbn [environ s3_objects files uuids_drawn trace stdout].
  replace ((trace w ++ [GetObject bucket key])
           ++ [FileRead (lit "prompt_template.txt")]) with calls
    by (subst calls; rewrite <- app_assoc; reflexivity).
  change (Summarize.model_kwargs rt prompt) with kwargs.
  rewrite Hinvoke.
  cbn [environ s3_objects files uuids_drawn trace stdout].
  rewrite Hsummary.
  cbn [environ s3_objects files uuids_drawn trace stdout].
  fold write.
  destruct (service_error rt (calls ++ [InvokeModel kwargs]) write) eqn:Hput;
    (eexists _, _; split; [reflexivity|]);
    cbn [environ s3_objects files uuids_drawn trace stdout];
    (split; [rewrite <- app_assoc; reflexivity|]);
    (split; [exact Hdialogue|]); (split; [exact Hcharges|]);
    (split; [exact Hlocation|]); (split; [exact Havailability|]).
  - intros H. discriminate H.
  - intros _. split; reflexivity.
Qed.

Lemma summarize_writes_result_witness :
  exists (r : result response) (w' : world),
    Summarize.lambda_handler Behaviour.templated_runtime Demo.transcript_event
      Behaviour.templated_world = (r, w')
    /\ trace w'
       = [GetObject (lit "text-bucket") (lit "job123-transcript.json");
          FileRead (lit "prompt_template.txt");
          InvokeModel
            (Summarize.model_kwargs Behaviour.templated_runtime
               (Template.substitute Behaviour.example_template
                  Demo.scenario1_dialogue Template.fixed_topics));
          PutObject (lit "text-bucket") (lit "results.txt")
            (lit "Positive; no issues.") (lit "text/plain")]
    /\ infixb Demo.scenario1_dialogue
         (Template.substitute Behaviour.example_template
            Demo.scenario1_dialogue Template.fixed_topics) = true
    /\ infixb (lit "charges")
         (Template.substitute Behaviour.example_template
            Demo.scenario1_dialogue Template.fixed_topics) = true
    /\ infixb (lit "location")
         (Template.substitute Behaviour.example_template
            Demo.scenario1_dialogue Template.fixed_topics) = true
    /\ infixb (lit "availability")
         (Template.substitute Behaviour.example_template
            Demo.scenario1_dialogue Template.fixed_topics) = true
    /\ r = Ok {| statusCode := 200;
                 body := json_dumps Behaviour.templated_runtime
                           (JStr (lit "Successfully summarized job123-transcript.json from bucket text-bucket. Summary: Positive; no issues.")) |}.
Proof.
  edestruct (summarize_writes_result Behaviour.templated_runtime
               Demo.transcript_event
               (lit "text-bucket") (lit "job123-transcript.json")
               Behaviour.templated_world
               {| obj_body := Demo.scenario1_text;
                  obj_content_type := lit "application/json" |}
               Demo.scenario1_text Demo.scenario1_dialogue
               Behaviour.example_template (lit "Positive; no issues."))
    as (r & w' & Hrun & Htrace & H1 & H2 & H3 & H4 & Hdone);
    try (vm_compute; reflexivity).
  destruct Hdone as [Hr _]; [vm_compute; reflexivity|].
  exists r, w'. repeat split; try assumption.
Defined.

(* ================================================================== *)
(** ** Further properties of the transcript formatter                  *)
(* ================================================================== *)

Import Behaviour.

Section FormatterErrors.

Variable rt : runtime.

(** The error of a turn does not depend on the text written so far nor on
    the current speaker. *)
Lemma format_item_raises (st : pystr * json) (item : json) (e : exn) :
  item_error item = Some e -> Summarize.format_item rt st item = Raise e.
Proof.
  unfold item_error, Summarize.format_item. destruct st as [out cur].
  destruct (dict_get item (lit "speaker_label")) as [label|e1];
    [|intros H; injection H as <-; reflexivity].
  destruct (Summarize.item_content item) as [content|e2];
    [|intros H; injection H as <-; reflexivity].
  cbn [rbind]. destruct (Summarize.header_due label cur);
    (destruct (getitem_key item (lit "type")) as [type|e3];
     [discriminate|intros H; injection H as <-; reflexivity]).
Qed.

Lemma format_item_returns (st : pystr * json) (item : json) :
  item_error item = None -> exists st', Summarize.format_item rt st item = Ok st'.
Proof.
  unfold item_error, Summarize.format_item. destruct st as [out cur].
  destruct (dict_get item (lit "speaker_label")) as [label|e1]; [|discriminate].
  destruct (Summarize.item_content item) as [content|e2]; [|discriminate].
  cbn [rbind]. destruct (Summarize.header_due label cur);
    (destruct (getitem_key item (lit "type")) as [type|e3]; [|discriminate]);
    intros _; cbn [rbind]; eexists; reflexivity.
Qed.

Lemma format_items_returns (items : list json) :
  forall st : pystr * json,
  forallb error_free items = true ->
  exists st', Summarize.format_items rt st items = Ok st'.
Proof.
  induction items as [|item items IH]; intros st H;
    cbn [Summarize.format_items forallb] in *.
  - exists st. reflexivity.
  - apply andb_prop in H as [Hitem Hrest]. unfold error_free in Hitem.
    destruct (item_error item) eqn:E; [discriminate|].
    destruct (format_item_returns st item E) as [st' ->]. cbn [rbind].
    apply IH, Hrest.
Qed.

Lemma format_items_returns_inv (items : list json) :
  forall st st' : pystr * json,
  Summarize.format_items rt st items = Ok st' ->
  forallb error_free items = true.
Proof.
  induction items as [|item items IH]; intros st st' H;
    cbn [Summarize.format_items forallb] in *; [reflexivity|].
  unfold error_free at 1.
  destruct (item_error item) as [e|] eqn:E.
  - rewrite (format_item_raises st item e E) in H. discriminate H.
  - destruct (format_item_returns st item E) as [st1 Hst1].
    rewrite Hst1 in H. cbn [rbind] in H. exact (IH _ _ H).
Qed.

End FormatterErrors.

(** X1. The formatter raises the lookup error of the first item that
    lacks a field, whatever the items before it wrote and whatever follows:
    the text built so far is lost. *)
Theorem formatter_raises_first_error (rt : runtime) (doc results : json)
    (pre post : list json) (bad : json) (e : exn) :
  getitem_key doc (lit "results") = Ok results ->
  getitem_key results (lit "items") = Ok (JArr (pre ++ bad :: post)) ->
  forallb error_free pre = true ->
  item_error bad = Some e ->
  Summarize.extract_transcript rt doc = Raise e.
Proof.
  intros Hres Hitems Hpre Hbad.
  rewrite (extract_transcript_items rt doc results _ Hres Hitems).
  rewrite format_items_app.
  destruct (format_items_returns rt pre ([], JNull) Hpre) as [st ->].
  cbn [rbind Summarize.format_items].
  rewrite (format_item_raises rt st bad e Hbad). reflexivity.
Qed.

Lemma formatter_raises_first_error_witness :
  Summarize.extract_transcript Demo.demo_runtime
    (transcript_document
       ([transcript_item (lit "pronunciation") (Some (lit "spk_0")) (lit "Hello")]
        ++ item_without_alternatives
        :: [transcript_item (lit "punctuation") None (lit ".")]))
  = Raise (KeyError (lit "'alternatives'")).
Proof.
  apply (formatter_raises_first_error Demo.demo_runtime _
           (JObj [(lit "items",
                   JArr ([transcript_item (lit "pronunciation") (Some (lit "spk_0")) (lit "Hello")]
                         ++ item_without_alternatives
                         :: [transcript_item (lit "punctuation") None (lit ".")]))])
           [transcript_item (lit "pronunciation") (Some (lit "spk_0")) (lit "Hello")]
           [transcript_item (lit "punctuation") None (lit ".")]
           item_without_alternatives
           (KeyError (lit "'alternatives'"))).
  - reflexivity.
  - reflexivity.
  - vm_compute. reflexivity.
  - vm_compute. reflexivity.
Defined.

(** X2. The formatter returns a text exactly when every item has the
    fields the loop reads (an object with a type and a first alternative
    that has a content), whatever the types of their values. *)
Theorem formatter_returns_iff_error_free (rt : runtime) (doc results : json)
    (items : list json) :
  getitem_key doc (lit "results") = Ok results ->
  getitem_key results (lit "items") = Ok (JArr items) ->
  (exists out, Summarize.extract_transcript rt doc = Ok out)
  <-> forallb error_free items = true.
Proof.
  intros Hres Hitems.
  rewrite (extract_transcript_items rt doc results _ Hres Hitems).
  split.
  - intros [out H].
    destruct (Summarize.format_items rt ([], JNull) items) as [st|e] eqn:E;
      [|discriminate H].
    exact (format_items_returns_inv rt items _ _ E).
  - intros H. destruct (format_items_returns rt items ([], JNull) H) as [st ->].
    eexists. reflexivity.
Qed.

Lemma formatter_returns_iff_error_free_witness :
  (exists out,
     Summarize.extract_transcript Demo.demo_runtime Demo.scenario1_document
     = Ok out)
  <-> forallb error_free Demo.scenario1_items = true.
Proof.
  apply (formatter_returns_iff_error_free Demo.demo_runtime
           Demo.scenario1_document
           (JObj [(lit "items", JArr Demo.scenario1_items)])).
  - reflexivity.
  - reflexivity.
Defined.

(** X3. On a non-empty sequence of items of the documented shape, the text
    the formatter returns ends with the content of the last item followed
    by one space: the trailing space is never removed, and the text is
    never empty. *)
Theorem formatter_ends_with_last_content (rt : runtime) (doc results : json)
    (pre : list json) (last : json) :
  getitem_key doc (lit "results") = Ok results ->
  getitem_key results (lit "items") = Ok (JArr (pre ++ [last])) ->
  forallb well_formed_item (pre ++ [last]) = true ->
  exists x,
    Summarize.extract_transcript rt doc
    = Ok (x ++ content_of last ++ lit " ").
Proof.
  intros Hres Hitems Hwf.
  rewrite forallb_app in Hwf. apply andb_prop in Hwf as [Hpre Hlast].
  cbn [forallb] in Hlast. rewrite andb_true_r in Hlast.
  rewrite (extract_transcript_items rt doc results _ Hres Hitems).
  rewrite format_items_app.
  destruct (format_items_wf rt pre [] JNull Hpre) as [out ->].
  cbn [rbind Summarize.format_items].
  rewrite (format_item_wf rt _ _ last Hlast). cbn [rbind fst].
  eexists. reflexivity.
Qed.

Lemma formatter_ends_with_last_content_witness :
  exists x,
    Summarize.extract_transcript Demo.demo_runtime Demo.scenario1_document
    = Ok (x ++ lit "there" ++ lit " ").
Proof.
  apply (formatter_ends_with_last_content Demo.demo_runtime
           Demo.scenario1_document
           (JObj [(lit "items", JArr Demo.scenario1_items)])
           [transcript_item (lit "pronunciation") (Some (lit "spk_0")) (lit "Hello");
            transcript_item (lit "punctuation") None (lit ",")]
           (transcript_item (lit "pronunciation") (Some (lit "spk_0")) (lit "there"))).
  - reflexivity.
  - reflexivity.
  - vm_compute. reflexivity.
Defined.

Section Newlines.

Variable rt : runtime.

Lemma rstrip_space_tail (o t : pystr) :
  forallb is_space t = true -> rstrip (o ++ t) = rstrip o.
Proof.
  intros H. induction o as [|x o IH]; cbn [app rstrip].
  - apply rstrip_spaces, H.
  - rewrite IH. reflexivity.
Qed.

Lemma rstrip_text_tail (o t : pystr) :
  rstrip t <> [] -> rstrip (o ++ t) = o ++ rstrip t.
Proof.
  intros H. induction o as [|x o IH]; cbn [app rstrip]; [reflexivity|].
  rewrite IH. destruct (o ++ rstrip t) eqn:E; [|reflexivity].
  apply app_eq_nil in E as [_ E]. contradiction.
Qed.

Lemma rstrip_nil_inv (t : pystr) :
  rstrip t = [] -> forallb is_space t = true.
Proof.
  intros H. destruct (rstrip_split t) as (u & Ht & Hu).
  rewrite H in Ht. cbn [app] in Ht. congruence.
Qed.

Lemma rstrip_idempotent (s : pystr) : rstrip (rstrip s) = rstrip s.
Proof.
  induction s as [|c s IH]; cbn [rstrip]; [reflexivity|].
  destruct (rstrip s) as [|y r] eqn:E.
  - destruct (is_space c) eqn:Hc; cbn [rstrip]; [reflexivity|].
    rewrite Hc. reflexivity.
  - change (rstrip (c :: y :: r)) with
      (match rstrip (y :: r) with
       | [] => if is_space c then [] else [c]
       | r' => c :: r'
       end).
    rewrite IH. reflexivity.
Qed.

Lemma newlines_app (a b : pystr) :
  newlines (a ++ b) = (newlines a + newlines b)%nat.
Proof.
  unfold newlines. rewrite List.filter_app, List.length_app. reflexivity.
Qed.

Lemma newlines_no_newline (s : pystr) :
  no_newline s = true -> newlines s = 0%nat.
Proof.
  unfold newlines, no_newline.
  induction s as [|c s IH]; cbn [forallb List.filter]; [reflexivity|].
  intros H. apply andb_prop in H as [Hc Hs].
  apply negb_true_iff in Hc. rewrite N.eqb_sym in Hc. rewrite Hc.
  apply IH, Hs.
Qed.

Lemma settled_rstrip (out : pystr) : settled out -> settled (rstrip out).
Proof. unfold settled. intros _. rewrite rstrip_idempotent. reflexivity. Qed.

Lemma settled_header (out l : pystr) : settled (out ++ speaker_header l).
Proof.
  unfold settled, speaker_header.
  change (lit ": ") with [58%N; 32%N].
  replace (out ++ NL :: l ++ [58%N; 32%N])
    with ((out ++ NL :: l) ++ 58%N :: [32%N])
    by (rewrite <- app_assoc; reflexivity).
  rewrite rstrip_keeps by reflexivity.
  rewrite !newlines_app. reflexivity.
Qed.

Lemma newlines_header (out l : pystr) :
  no_newline l = true ->
  newlines (out ++ speaker_header l) = S (newlines out).
Proof.
  intros Hl. unfold speaker_header.
  change (NL :: l ++ lit ": ") with ([NL] ++ l ++ lit ": ").
  rewrite !newlines_app, (newlines_no_newline l Hl).
  change (newlines [NL]) with 1%nat. change (newlines (lit ": ")) with 0%nat.
  lia.
Qed.

Lemma settled_content (out c : pystr) :
  settled out -> no_newline c = true ->
  settled (out ++ c ++ lit " ")
  /\ newlines (out ++ c ++ lit " ") = newlines out.
Proof.
  unfold settled. intros Hout Hc.
  assert (Ht : no_newline (c ++ lit " ") = true)
    by (rewrite no_newline_app, Hc; reflexivity).
  assert (Hn : newlines (out ++ c ++ lit " ") = newlines out).
  { rewrite newlines_app, (newlines_no_newline _ Ht). lia. }
  split; [|exact Hn]. rewrite Hn.
  destruct (rstrip (c ++ lit " ")) as [|y r] eqn:E.
  - rewrite (rstrip_space_tail out _ (rstrip_nil_inv _ E)). exact Hout.
  - rewrite rstrip_text_tail by (rewrite E; discriminate).
    rewrite newlines_app, (newlines_no_newline _ (no_newline_rstrip _ Ht)).
    lia.
Qed.

Lemma header_due_cursor (l : pystr) (speaker : option pystr) :
  Summarize.header_due (JStr l) (cursor speaker)
  = match speaker with
    | Some l' => negb (pystr_eqb l l')
    | None => true
    end.
Proof. destruct speaker; reflexivity. Qed.

(** Each turn of speaker adds one newline to the text, and nothing else
    adds or removes one. *)
Lemma format_items_newlines (items : list json) :
  forall (out : pystr) (speaker : option pystr) (st : pystr * json),
  settled out ->
  forallb well_formed_item items = true ->
  forallb label_on_one_line items = true ->
  forallb (fun item => no_newline (content_of item)) items = true ->
  Summarize.format_items rt (out, cursor speaker) items = Ok st ->
  newlines (fst st)
  = (newlines out + speaker_turns speaker (List.map label_of items))%nat.
Proof.
  induction items as [|item items IH];
    intros out speaker st Hout Hwf Hlabels Hcontents Hrun;
    cbn [Summarize.format_items forallb List.map speaker_turns] in *.
  - injection Hrun as <-. cbn [fst]. lia.
  - apply andb_prop in Hwf as [Hitem Hwf].
    apply andb_prop in Hlabels as [Hlabel Hlabels].
    apply andb_prop in Hcontents as [Hcontent Hcontents].
    rewrite (format_item_wf rt out (cursor speaker) item Hitem) in Hrun.
    cbn [rbind] in Hrun. unfold label_on_one_line in Hlabel.
    assert (Hturn : exists out1 speaker1,
      match label_of item with
      | Some l =>
          if Summarize.header_due (JStr l) (cursor speaker)
          then (out ++ speaker_header l, JStr l)
          else (out, cursor speaker)
      | None => (out, cursor speaker)
      end = (out1, cursor speaker1)
      /\ settled out1
      /\ (newlines out1 + speaker_turns speaker1 (List.map label_of items)
          = newlines out
            + match label_of item with
              | Some l =>
                  match speaker with
                  | Some l' => if pystr_eqb l l' then 0 else 1
                  | None => 1
                  end + speaker_turns (Some l) (List.map label_of items)
              | None => speaker_turns speaker (List.map label_of items)
              end)%nat).
    { destruct (label_of item) as [l|].
      - rewrite header_due_cursor. destruct speaker as [l'|].
        + destruct (pystr_eqb l l') eqn:E; cbn [negb].
          * apply pystr_eqb_eq in E. subst l'.
            exists out, (Some l).
            split; [reflexivity|]. split; [exact Hout|lia].
          * exists (out ++ speaker_header l), (Some l).
            split; [reflexivity|]. split; [apply settled_header|].
            rewrite (newlines_header out l Hlabel). lia.
        + exists (out ++ speaker_header l), (Some l).
          split; [reflexivity|]. split; [apply settled_header|].
          rewrite (newlines_header out l Hlabel). lia.
      - exists out, speaker.
        split; [reflexivity|]. split; [exact Hout|lia]. }
    destruct Hturn as (out1 & speaker1 & Heq & Hout1 & Hcount).
    rewrite Heq in Hrun. cbn [fst snd] in Hrun.
    assert (Hnext : settled
                      ((if is_punctuation item then rstrip out1 else out1)
                       ++ content_of item ++ lit " ")
                    /\ newlines
                         ((if is_punctuation item then rstrip out1 else out1)
                          ++ content_of item ++ lit " ")
                       = newlines out1).
    { destruct (is_punctuation item).
      - destruct (settled_content (rstrip out1) (content_of item)
                    (settled_rstrip _ Hout1) Hcontent) as [H1 H2].
        split; [exact H1|]. rewrite H2. exact Hout1.
      - apply settled_content; assumption. }
    destruct Hnext as [Hsettled Hsame].
    rewrite (IH _ speaker1 st Hsettled Hwf Hlabels Hcontents Hrun).
    rewrite Hsame. destruct (label_of item); exact Hcount.
Qed.

End Newlines.

(** X4. When no speaker label and no content holds a newline, the text
    the formatter returns has exactly one newline per turn of speaker: one
    for each labelled item whose label differs from that of the last
    labelled item before it. Punctuation never removes one, and items
    without label never add one. *)
Theorem formatter_one_line_per_turn (rt : runtime) (doc results : json)
    (items : list json) :
  getitem_key doc (lit "results") = Ok results ->
  getitem_key results (lit "items") = Ok (JArr items) ->
  forallb well_formed_item items = true ->
  forallb label_on_one_line items = true ->
  forallb (fun item => no_newline (content_of item)) items = true ->
  exists out,
    Summarize.extract_transcript rt doc = Ok out
    /\ newlines out = speaker_turns None (List.map label_of items).
Proof.
  intros Hres Hitems Hwf Hlabels Hcontents.
  rewrite (extract_transcript_items rt doc results _ Hres Hitems).
  destruct (format_items_wf rt items [] JNull Hwf) as [out Hrun].
  rewrite Hrun. cbn [rbind fst]. exists out. split; [reflexivity|].
  exact (format_items_newlines rt items [] None _ eq_refl Hwf Hlabels
           Hcontents Hrun).
Qed.

Lemma formatter_one_line_per_turn_witness :
  exists out,
    Summarize.extract_transcript Demo.demo_runtime
      (transcript_document two_speaker_items) = Ok out
    /\ newlines out = 3%nat.
Proof.
  apply (formatter_one_line_per_turn Demo.demo_runtime
           (transcript_document two_speaker_items)
           (JObj [(lit "items", JArr two_speaker_items)])
           two_speaker_items).
  - reflexivity.
  - reflexivity.
  - vm_compute. reflexivity.
  - vm_compute. reflexivity.
  - vm_compute. reflexivity.
Defined.

(* ================================================================== *)
(** ** Further properties of the summary extraction                    *)
(* ================================================================== *)

Lemma existsb_lookup_key (k : pystr) (kvs : list (pystr * json)) :
  existsb (fun kv => pystr_eqb (fst kv) k) kvs
  = match lookup_key k kvs with
    | Some _ => true
    | None => false
    end.
Proof.
  induction kvs as [|[k' v] kvs IH]; cbn [existsb lookup_key fst];
    [reflexivity|].
  destruct (pystr_eqb k' k); [reflexivity|exact IH].
Qed.

Lemma first_text_block_skips (pre rest : list json) :
  forallb has_no_text pre = true ->
  Summarize.first_text_block (pre ++ rest) = Summarize.first_text_block rest.
Proof.
  induction pre as [|block pre IH]; cbn [app forallb]; [reflexivity|].
  intros H. apply andb_prop in H as [Hblock Hpre].
  cbn [Summarize.first_text_block].
  destruct block as [| | | | | |kvs]; try discriminate Hblock.
  cbn [py_contains rbind has_no_text] in *. rewrite existsb_lookup_key.
  destruct (lookup_key (lit "text") kvs); [discriminate|].
  apply IH, Hpre.
Qed.

Lemma parse_summary_blocks (rt : runtime) (reply : bytes)
    (response_body : json) (blocks : list json) :
  json_loads_bytes rt reply = Ok response_body ->
  content_list response_body = Ok (JArr blocks) ->
  Summarize.parse_summary rt reply
  = rbind (Summarize.first_text_block blocks)
      (fun text_block =>
         if py_truthy text_block then getitem_key text_block (lit "text")
         else Ok (JStr [])).
Proof.
  intros Hloads Hcontent. unfold Summarize.parse_summary, content_list in *.
  rewrite Hloads. cbn [rbind].
  destruct (getitem_key response_body (lit "output")) as [output|];
    [|discriminate].
  cbn [rbind] in *.
  destruct (getitem_key output (lit "message")) as [message|];
    [|discriminate].
  cbn [rbind] in *. rewrite Hcontent. reflexivity.
Qed.

(** X5. The summary is the text of the first content block that has one:
    the blocks without text before it are passed over and the blocks after
    it are not looked at. *)
Theorem summary_is_first_text_block (rt : runtime) (reply : bytes)
    (response_body : json) (pre post : list json)
    (kvs : list (pystr * json)) (text : json) :
  json_loads_bytes rt reply = Ok response_body ->
  content_list response_body = Ok (JArr (pre ++ JObj kvs :: post)) ->
  forallb has_no_text pre = true ->
  lookup_key (lit "text") kvs = Some text ->
  Summarize.parse_summary rt reply = Ok text.
Proof.
  intros Hloads Hcontent Hpre Htext.
  rewrite (parse_summary_blocks rt reply response_body _ Hloads Hcontent).
  rewrite (first_text_block_skips pre _ Hpre).
  cbn [Summarize.first_text_block py_contains rbind].
  rewrite existsb_lookup_key, Htext. cbn [rbind].
  destruct kvs as [|kv kvs']; [discriminate Htext|].
  cbn [py_truthy length Nat.eqb negb getitem_key]. rewrite Htext. reflexivity.
Qed.

Lemma summary_is_first_text_block_witness :
  Summarize.parse_summary mixed_runtime (Demo.dumps mixed_answer)
  = Ok (JStr (lit "First summary.")).
Proof.
  apply (summary_is_first_text_block mixed_runtime
           (Demo.dumps mixed_answer) mixed_answer
           [JObj [(lit "toolUse", JObj [])]]
           [JInt 5; JObj [(lit "text", JStr (lit "Second summary."))]]
           [(lit "text", JStr (lit "First summary."))]
           (JStr (lit "First summary."))).
  - vm_compute. reflexivity.
  - reflexivity.
  - reflexivity.
  - reflexivity.
Defined.

(** X6. When no content block of the model's answer has a text, the
    summary is the empty string: the handler does not treat it as an
    error. *)
Theorem summary_empty_without_text (rt : runtime) (reply : bytes)
    (response_body : json) (blocks : list json) :
  json_loads_bytes rt reply = Ok response_body ->
  content_list response_body = Ok (JArr blocks) ->
  forallb has_no_text blocks = true ->
  Summarize.parse_summary rt reply = Ok (JStr []).
Proof.
  intros Hloads Hcontent Hblocks.
  rewrite (parse_summary_blocks rt reply response_body _ Hloads Hcontent).
  rewrite <- (app_nil_r blocks).
  rewrite (first_text_block_skips blocks [] Hblocks). reflexivity.
Qed.

Lemma summary_empty_without_text_witness :
  Summarize.parse_summary silent_runtime (Demo.dumps silent_answer)
  = Ok (JStr []).
Proof.
  apply (summary_empty_without_text silent_runtime
           (Demo.dumps silent_answer) silent_answer
           [JObj [(lit "toolUse", JObj [])]]).
  - vm_compute. reflexivity.
  - reflexivity.
  - reflexivity.
Defined.

(** X7. [bedrock_summarisation] invokes the model at most once, and only
    on the prompt rendered from the template file with the transcript:
    when the file is missing or the template does not render, it raises
    that error and the model is not invoked. *)
Theorem model_invoked_only_on_rendered_prompt (rt : runtime)
    (transcript : pystr) (w : world) (r : result json) (w' : world) :
  Summarize.bedrock_summarisation rt transcript w = (r, w') ->
  (exists e,
     r = Raise e
     /\ trace w' = trace w ++ [FileRead (lit "prompt_template.txt")]
     /\ (files w !! lit "prompt_template.txt" = None
         \/ exists template_string,
              files w !! lit "prompt_template.txt" = Some template_string
              /\ jinja_render rt template_string
                   (Summarize.template_data transcript) = Raise e))
  \/ (exists template_string prompt,
        files w !! lit "prompt_template.txt" = Some template_string
        /\ jinja_render rt template_string
             (Summarize.template_data transcript) = Ok prompt
        /\ trace w'
           = trace w ++ [FileRead (lit "prompt_template.txt");
                         InvokeModel (Summarize.model_kwargs rt prompt)]).
Proof.
  unfold Summarize.bedrock_summarisation, Summarize.render_prompt,
    open_read, invoke_model.
  run_monad. intros H.
  destruct (files w !! lit "prompt_template.txt") as [template_string|] eqn:Hfile;
    cbn [environ s3_objects files uuids_drawn trace stdout] in H.
  - destruct (jinja_render rt template_string (Summarize.template_data transcript))
      as [prompt|e] eqn:Hrender;
      cbn [environ s3_objects files uuids_drawn trace stdout] in H.
    + right. exists template_string, prompt.
      split; [reflexivity|]. split; [exact Hrender|].
      repeat case_run H; injection H as <- <-;
        cbn [environ s3_objects files uuids_drawn trace stdout];
        rewrite <- app_assoc; reflexivity.
    + left. injection H as <- <-. exists e.
      split; [reflexivity|]. split; [reflexivity|].
      right. exists template_string. split; [reflexivity|exact Hrender].
  - left. injection H as <- <-. eexists.
    split; [reflexivity|]. split; [reflexivity|]. left. reflexivity.
Qed.

Lemma model_invoked_only_on_rendered_prompt_witness :
  (exists e,
     fst (Summarize.bedrock_summarisation Demo.demo_runtime
            Demo.scenario1_dialogue Demo.world_without_template) = Raise e
     /\ trace (snd (Summarize.bedrock_summarisation Demo.demo_runtime
                      Demo.scenario1_dialogue Demo.world_without_template))
        = [FileRead (lit "prompt_template.txt")]).
Proof.
  destruct (model_invoked_only_on_rendered_prompt Demo.demo_runtime
              Demo.scenario1_dialogue Demo.world_without_template
              (fst (Summarize.bedrock_summarisation Demo.demo_runtime
                      Demo.scenario1_dialogue Demo.world_without_template))
              (snd (Summarize.bedrock_summarisation Demo.demo_runtime
                      Demo.scenario1_dialogue Demo.world_without_template)))
    as [(e & He & Ht & _) | (t & p & Hfile & _)].
  - vm_compute. reflexivity.
  - exists e. split; [exact He|exact Ht].
  - vm_compute in Hfile. discriminate Hfile.
Defined.

(* ================================================================== *)
(** ** Every run of the handlers                                       *)
(* ================================================================== *)

(** The end of a case of a run: the outcome and the world are read off
    the equation [H], the calls made are those of the trace. *)
Ltac close_run H :=
  rewrite <- ?app_assoc in H; cbn [app] in H;
  injection H as <- <-;
  right; eexists _, _;
  split; [reflexivity|];
  split; [first [left; reflexivity | right; reflexivity]|];
  cbn [environ s3_objects files uuids_drawn trace stdout];
  split; [first [reflexivity | symmetry; apply app_nil_r]|];
  split; [econstructor; eassumption || reflexivity|];
  repeat split.

(** Every run of the summarization handler on an event that has the
    record structure: either the test of the key raises, or the handler
    returns a response, with status 200 or 500, after calls in the order
    fetch, template, model, write. *)
Lemma summarize_handler_run (rt : runtime) (event bucket key : json)
    (w : world) (r : result response) (w' : world) :
  record_field event (lit "bucket") (lit "name") = Ok bucket ->
  record_field event (lit "object") (lit "key") = Ok key ->
  Summarize.lambda_handler rt event w = (r, w') ->
  (exists e,
     py_contains (lit "-transcript.json") key = Raise e
     /\ r = Raise e /\ w' = w)
  \/ (exists resp suffix,
        r = Ok resp
        /\ status_200_or_500 resp
        /\ trace w' = trace w ++ suffix
        /\ summarize_calls rt bucket key suffix
        /\ environ w' = environ w
        /\ files w' = files w
        /\ uuids_drawn w' = uuids_drawn w).
Proof.
  intros Hbucket Hkey.
  unfold Summarize.lambda_handler, Summarize.summarise_and_store,
    Summarize.read_and_summarise, Summarize.bedrock_summarisation,
    Summarize.render_prompt, Summarize.error_response,
    get_object_body, open_read, invoke_model, put_object,
    param_validation_error, status_200_or_500.
  run_monad. rewrite Hbucket, Hkey. intros H.
  destruct (py_contains (lit "-transcript.json") key) as [[|]|e] eqn:Hin;
    cbn [negb] in H.
  - destruct bucket, key; repeat case_run H; close_run H.
  - close_run H.
  - left. injection H as <- <-. exists e. repeat split.
Qed.

(** X8. Whatever happens, one invocation of the summarization handler
    makes its calls in one order, each at most once: the fetch of the
    object of the event, the read of the template, one invocation of the
    model, one write of results.txt to the bucket of the event. It never
    writes under another key or to another bucket, never reads the
    environment and never starts a transcription job. *)
Theorem summarize_handler_calls (rt : runtime) (event bucket key : json)
    (w : world) (r : result response) (w' : world) :
  record_field event (lit "bucket") (lit "name") = Ok bucket ->
  record_field event (lit "object") (lit "key") = Ok key ->
  Summarize.lambda_handler rt event w = (r, w') ->
  exists suffix,
    trace w' = trace w ++ suffix
    /\ summarize_calls rt bucket key suffix
    /\ environ w' = environ w
    /\ files w' = files w
    /\ uuids_drawn w' = uuids_drawn w.
Proof.
  intros Hbucket Hkey Hrun.
  destruct (summarize_handler_run rt event bucket key w r w' Hbucket Hkey Hrun)
    as [(e & _ & _ & ->) | (resp & suffix & _ & _ & Ht & Hc & He & Hf & Hu)].
  - exists []. rewrite app_nil_r. repeat split. constructor.
  - exists suffix. repeat split; assumption.
Qed.

Lemma summarize_handler_calls_witness :
  exists suffix,
    trace (snd (Summarize.lambda_handler Demo.demo_runtime
                  Demo.transcript_event Demo.configured_world))
    = trace Demo.configured_world ++ suffix
    /\ summarize_calls Demo.demo_runtime (JStr (lit "text-bucket"))
         (JStr (lit "job123-transcript.json")) suffix
    /\ length suffix = 4%nat.
Proof.
  destruct (summarize_handler_calls Demo.demo_runtime Demo.transcript_event
              (JStr (lit "text-bucket")) (JStr (lit "job123-transcript.json"))
              Demo.configured_world
              (fst (Summarize.lambda_handler Demo.demo_runtime
                      Demo.transcript_event Demo.configured_world))
              (snd (Summarize.lambda_handler Demo.demo_runtime
                      Demo.transcript_event Demo.configured_world))
              eq_refl eq_refl)
    as (suffix & Ht & Hc & _).
  - vm_compute. reflexivity.
  - exists suffix. split; [exact Ht|]. split; [exact Hc|].
    apply (f_equal (@length call)) in Ht. rewrite List.length_app in Ht.
    vm_compute in Ht. vm_compute. lia.
Defined.



(** The end of a case of a run of the transcription handler. *)
Ltac close_job_run H :=
  rewrite <- ?app_assoc in H; cbn [app] in H;
  injection H as <- <-;
  eexists _, _;
  split; [reflexivity|];
  split; [first [left; reflexivity | right; reflexivity]|];
  cbn [environ s3_objects files uuids_drawn trace stdout];
  split; [first [reflexivity | symmetry; apply app_nil_r]|];
  split; [econstructor; eassumption || reflexivity|];
  repeat split; lia.

(** Every run of the transcription handler on an event that has the
    record structure returns a response. *)
Lemma transcribe_handler_run (rt : runtime) (event bucket key : json)
    (w : world) (r : result response) (w' : world) :
  record_field event (lit "bucket") (lit "name") = Ok bucket ->
  record_field event (lit "object") (lit "key") = Ok key ->
  Transcribe.lambda_handler rt event w = (r, w') ->
  exists resp suffix,
    r = Ok resp
    /\ status_200_or_500 resp
    /\ trace w' = trace w ++ suffix
    /\ transcribe_calls rt bucket key w suffix
    /\ s3_objects w' = s3_objects w
    /\ environ w' = environ w
    /\ files w' = files w
    /\ (uuids_drawn w' <= S (uuids_drawn w))%nat.
Proof.
  intros Hbucket Hkey.
  unfold Transcribe.lambda_handler, Transcribe.submit_job,
    Transcribe.error_response, status_200_or_500.
  run_monad. rewrite Hbucket, Hkey. intros H.
  destruct (py_eq key (JStr (lit "dialog.mp3"))) eqn:Hcmp; cbn [negb] in H.
  - repeat case_run H; close_job_run H.
  - close_job_run H.
Qed.



(** X11. When the service refuses the job, the transcription handler
    catches the error and returns status 500 with the JSON encoding of
    "Error occurred: " followed by the text of the error; the request was
    sent once and is not sent again. *)
Theorem transcribe_reports_service_error (rt : runtime) (event bucket : json)
    (w : world) (output_bucket : pystr) (e : exn) :
  record_field event (lit "bucket") (lit "name") = Ok bucket ->
  record_field event (lit "object") (lit "key") = Ok (JStr (lit "dialog.mp3")) ->
  environ w !! lit "S3BUCKETNAMETEXT" = Some output_bucket ->
  let request :=
    Transcribe.job_request rt bucket (JStr (lit "dialog.mp3"))
      (lit "transcription-job-" ++ uuid4 rt (uuids_drawn w)) output_bucket in
  service_error rt (trace w ++ [EnvironRead (lit "S3BUCKETNAMETEXT")])
    (StartTranscriptionJob request) = Some e ->
  exists w',
    Transcribe.lambda_handler rt event w
    = (Ok {| statusCode := 500;
             body := json_dumps rt
                       (JStr (lit "Error occurred: " ++ exn_str e)) |}, w')
    /\ trace w'
       = trace w ++ [EnvironRead (lit "S3BUCKETNAMETEXT");
                     StartTranscriptionJob request].
Proof.
  intros Hbucket Hkey Henv request Hrefuse.
  unfold Transcribe.lambda_handler, Transcribe.submit_job,
    Transcribe.error_response.
  run_monad. rewrite Hbucket, Hkey.
  replace (py_eq (JStr (lit "dialog.mp3")) (JStr (lit "dialog.mp3")))
    with true by (symmetry; apply py_eq_str_r; reflexivity).
  cbn [negb]. rewrite Henv.
  cbn [environ s3_objects files uuids_drawn trace stdout].
  fold request. rewrite Hrefuse.
  eexists. split; [reflexivity|].
  cbn [environ s3_objects files uuids_drawn trace stdout].
  rewrite <- app_assoc. reflexivity.
Qed.

Lemma transcribe_reports_service_error_witness :
  exists w',
    Transcribe.lambda_handler busy_runtime
      (s3_event (JStr (lit "audio-bucket")) (JStr (lit "dialog.mp3")))
      Demo.configured_world
    = (Ok {| statusCode := 500;
             body := json_dumps busy_runtime
                       (JStr (lit "Error occurred: " ++ exn_str limit_exceeded)) |},
       w')
    /\ length (trace w') = 2%nat.
Proof.
  destruct (transcribe_reports_service_error busy_runtime
              (s3_event (JStr (lit "audio-bucket")) (JStr (lit "dialog.mp3")))
              (JStr (lit "audio-bucket")) Demo.configured_world
              (lit "text-bucket") limit_exceeded eq_refl eq_refl eq_refl eq_refl)
    as (w' & Hrun & Htrace).
  exists w'. split; [exact Hrun|]. rewrite Htrace. reflexivity.
Defined.

(** Both handlers read the event through [record_field] only. *)
Lemma record_field_first_record (kvs : list (pystr * json)) (record : json)
    (rest : list json) (a b : pystr) :
  lookup_key (lit "Records") kvs = Some (JArr (record :: rest)) ->
  record_field (JObj kvs) a b
  = record_field (JObj [(lit "Records", JArr [record])]) a b.
Proof.
  intros H. unfold record_field. cbn [getitem_key]. rewrite H. reflexivity.
Qed.

(** X12. Both handlers look at the first record of the event only: the
    records after it, and every other entry of the event, change nothing
    to what the handler does and returns. *)
Theorem only_first_record_is_processed (rt : runtime)
    (kvs : list (pystr * json)) (record : json) (rest : list json)
    (w : world) :
  lookup_key (lit "Records") kvs = Some (JArr (record :: rest)) ->
  Transcribe.lambda_handler rt (JObj kvs) w
  = Transcribe.lambda_handler rt (JObj [(lit "Records", JArr [record])]) w
  /\ Summarize.lambda_handler rt (JObj kvs) w
     = Summarize.lambda_handler rt (JObj [(lit "Records", JArr [record])]) w.
Proof.
  intros H. unfold Transcribe.lambda_handler, Summarize.lambda_handler.
  rewrite !(record_field_first_record kvs record rest _ _ H).
  split; reflexivity.
Qed.

Lemma only_first_record_is_processed_witness :
  Transcribe.lambda_handler Demo.demo_runtime two_record_event
    Demo.configured_world
  = Transcribe.lambda_handler Demo.demo_runtime
      (JObj [(lit "Records", JArr [upload_record (lit "audio-bucket") (lit "other.mp3")])])
      Demo.configured_world
  /\ Summarize.lambda_handler Demo.demo_runtime two_record_event
       Demo.configured_world
     = Summarize.lambda_handler Demo.demo_runtime
         (JObj [(lit "Records", JArr [upload_record (lit "audio-bucket") (lit "other.mp3")])])
         Demo.configured_world.
Proof.
  apply (only_first_record_is_processed Demo.demo_runtime _
           (upload_record (lit "audio-bucket") (lit "other.mp3"))
           [upload_record (lit "audio-bucket") (lit "dialog.mp3")]
           Demo.configured_world).
  reflexivity.
Defined.

(* ================================================================== *)
(** ** The two handlers together                                       *)
(* ================================================================== *)

(** The transcription handler on the upload of an object that is not
    dialog.mp3: it answers that it skips the file and calls nothing. *)
Lemma transcribe_skip_run (rt : runtime) (bucket : json) (k : pystr)
    (w : world) :
  k <> lit "dialog.mp3" ->
  exists w',
    Transcribe.lambda_handler rt (s3_event bucket (JStr k)) w
    = (Ok {| statusCode := 200;
             body := json_dumps rt
                       (JStr (lit "Skipping file " ++ k
                              ++ lit " - not dialog.mp3")) |}, w')
    /\ trace w' = trace w
    /\ s3_objects w' = s3_objects w.
Proof.
  intros Hne.
  assert (Hcmp : py_eq (JStr k) (JStr (lit "dialog.mp3")) = false).
  { cbn [py_eq]. apply pystr_eqb_neq, Hne. }
  unfold Transcribe.lambda_handler.
  destruct (record_field_s3_event bucket (JStr k)) as [-> ->].
  run_monad. rewrite Hcmp. cbn [negb].
  eexists. split; [reflexivity|]. split; reflexivity.
Qed.

(** The summarization handler on the upload of an object whose key does
    not contain -transcript.json. *)
Lemma summarize_skip_run (rt : runtime) (bucket : json) (k : pystr)
    (w : world) :
  infixb (lit "-transcript.json") k = false ->
  exists w',
    Summarize.lambda_handler rt (s3_event bucket (JStr k)) w
    = (Ok {| statusCode := 200;
             body := json_dumps rt
                       (JStr (lit "Skipping file " ++ k
                              ++ lit " - not a transcript JSON file")) |}, w')
    /\ trace w' = trace w
    /\ s3_objects w' = s3_objects w.
Proof.
  intros Hin. unfold Summarize.lambda_handler.
  destruct (record_field_s3_event bucket (JStr k)) as [-> ->].
  run_monad. cbn [py_contains]. rewrite Hin. cbn [negb].
  eexists. split; [reflexivity|]. split; reflexivity.
Qed.

Lemma transcript_key_is_not_the_audio (job_name : pystr) :
  job_name ++ lit "-transcript.json" <> lit "dialog.mp3".
Proof.
  intros H. apply (f_equal (@length N)) in H.
  rewrite List.length_app in H.
  change (length (lit "-transcript.json")) with 16%nat in H.
  change (length (lit "dialog.mp3")) with 10%nat in H. lia.
Qed.

(** X13. Every job-start request the transcription handler sends asks for
    the transcript in the bucket of the environment variable, under a key
    that passes the filter of the summarization handler (it contains
    "-transcript.json") and that the transcription handler itself skips,
    without any call, when the upload of that transcript is notified to
    it. *)
Theorem transcript_feeds_summarizer_only (rt : runtime)
    (event bucket key : json) (w : world) (r : result response) (w' : world)
    (suffix : list call) (request : transcription_request) :
  record_field event (lit "bucket") (lit "name") = Ok bucket ->
  record_field event (lit "object") (lit "key") = Ok key ->
  Transcribe.lambda_handler rt event w = (r, w') ->
  trace w' = trace w ++ suffix ->
  In (StartTranscriptionJob request) suffix ->
  environ w !! lit "S3BUCKETNAMETEXT" = Some (OutputBucketName request)
  /\ py_contains (lit "-transcript.json") (JStr (OutputKey request)) = Ok true
  /\ forall (rt2 : runtime) (w2 : world),
       exists w3,
         Transcribe.lambda_handler rt2
           (s3_event (JStr (OutputBucketName request))
              (JStr (OutputKey request))) w2
         = (Ok {| statusCode := 200;
                  body := json_dumps rt2
                            (JStr (lit "Skipping file " ++ OutputKey request
                                   ++ lit " - not dialog.mp3")) |}, w3)
         /\ trace w3 = trace w2
         /\ s3_objects w3 = s3_objects w2.
Proof.
  intros Hbucket Hkey Hrun Htrace Hin.
  destruct (transcribe_handler_run rt event bucket key w r w' Hbucket Hkey Hrun)
    as (resp & suffix0 & _ & _ & Htrace0 & Hcalls & _).
  rewrite Htrace in Htrace0. apply app_inv_head in Htrace0. subst suffix0.
  destruct Hcalls as [| |output_bucket Henv]; cbn [In] in Hin.
  - contradiction.
  - destruct Hin as [Hin|[]]. discriminate Hin.
  - destruct Hin as [Hin|[Hin|[]]]; [discriminate Hin|].
    injection Hin as <-. cbn [Transcribe.job_request OutputBucketName OutputKey].
    split; [exact Henv|]. split.
    + cbn [py_contains]. f_equal.
      rewrite <- (app_nil_r (lit "-transcript.json")) at 2.
      apply infixb_app.
    + intros rt2 w2. apply transcribe_skip_run.
      apply transcript_key_is_not_the_audio.
Qed.

Lemma transcript_feeds_summarizer_only_witness :
  py_contains (lit "-transcript.json")
    (JStr (lit "transcription-job-" ++ uuid4 Demo.demo_runtime 0
           ++ lit "-transcript.json")) = Ok true.
Proof.
  destruct (transcript_feeds_summarizer_only Demo.demo_runtime
              (s3_event (JStr (lit "audio-bucket")) (JStr (lit "dialog.mp3")))
              (JStr (lit "audio-bucket")) (JStr (lit "dialog.mp3"))
              Demo.configured_world
              (fst (Transcribe.lambda_handler Demo.demo_runtime
                      (s3_event (JStr (lit "audio-bucket")) (JStr (lit "dialog.mp3")))
                      Demo.configured_world))
              (snd (Transcribe.lambda_handler Demo.demo_runtime
                      (s3_event (JStr (lit "audio-bucket")) (JStr (lit "dialog.mp3")))
                      Demo.configured_world))
              [EnvironRead (lit "S3BUCKETNAMETEXT");
               StartTranscriptionJob
                 (Transcribe.job_request Demo.demo_runtime
                    (JStr (lit "audio-bucket")) (JStr (lit "dialog.mp3"))
                    (lit "transcription-job-" ++ uuid4 Demo.demo_runtime 0)
                    (lit "text-bucket"))]
              (Transcribe.job_request Demo.demo_runtime
                 (JStr (lit "audio-bucket")) (JStr (lit "dialog.mp3"))
                 (lit "transcription-job-" ++ uuid4 Demo.demo_runtime 0)
                 (lit "text-bucket"))
              eq_refl eq_refl)
    as (_ & Hpass & _).
  - vm_compute. reflexivity.
  - vm_compute. reflexivity.
  - right. left. reflexivity.
  - rewrite <- Hpass. vm_compute. reflexivity.
Defined.

(** X14. Every write the summarization handler sends is for the key
    results.txt in the bucket of its event, and the upload of that object
    starts nothing again: notified of it, the summarization handler and the
    transcription handler both answer that they skip the file, without any
    call. *)
Theorem summary_starts_nothing_again (rt : runtime)
    (event bucket key : json) (w : world) (r : result response) (w' : world)
    (suffix : list call) (b k body content_type : pystr) :
  record_field event (lit "bucket") (lit "name") = Ok bucket ->
  record_field event (lit "object") (lit "key") = Ok key ->
  Summarize.lambda_handler rt event w = (r, w') ->
  trace w' = trace w ++ suffix ->
  In (PutObject b k body content_type) suffix ->
  bucket = JStr b
  /\ k = lit "results.txt"
  /\ forall (rt2 : runtime) (w2 : world),
       (exists w3,
          Summarize.lambda_handler rt2 (s3_event (JStr b) (JStr k)) w2
          = (Ok {| statusCode := 200;
                   body := json_dumps rt2
                             (JStr (lit "Skipping file " ++ k
                                    ++ lit " - not a transcript JSON file")) |},
             w3)
          /\ trace w3 = trace w2
          /\ s3_objects w3 = s3_objects w2)
       /\ (exists w3,
             Transcribe.lambda_handler rt2 (s3_event (JStr b) (JStr k)) w2
             = (Ok {| statusCode := 200;
                      body := json_dumps rt2
                                (JStr (lit "Skipping file " ++ k
                                       ++ lit " - not dialog.mp3")) |}, w3)
             /\ trace w3 = trace w2
             /\ s3_objects w3 = s3_objects w2).
Proof.
  intros Hbucket Hkey Hrun Htrace Hin.
  destruct (summarize_handler_run rt event bucket key w r w' Hbucket Hkey Hrun)
    as [(e & _ & _ & ->) | (resp & suffix0 & _ & _ & Htrace0 & Hcalls & _)].
  - rewrite <- (app_nil_r (trace w)) in Htrace at 1.
    apply app_inv_head in Htrace. subst suffix. contradiction.
  - rewrite Htrace in Htrace0. apply app_inv_head in Htrace0. subst suffix0.
    destruct Hcalls; cbn [In] in Hin;
      repeat match type of Hin with
             | _ \/ _ => destruct Hin as [Hin|Hin]
             end;
      try contradiction; try discriminate Hin.
    injection Hin as <- <- <- <-.
    split; [reflexivity|]. split; [reflexivity|].
    intros rt2 w2. split.
    + apply summarize_skip_run. vm_compute. reflexivity.
    + apply transcribe_skip_run. intros H. vm_compute in H. discriminate H.
Qed.

Lemma summary_starts_nothing_again_witness :
  JStr (lit "text-bucket") = JStr (lit "text-bucket")
  /\ lit "results.txt" = lit "results.txt"
  /\ exists w3,
       Summarize.lambda_handler Demo.demo_runtime
         (s3_event (JStr (lit "text-bucket")) (JStr (lit "results.txt")))
         Demo.configured_world
       = (Ok {| statusCode := 200;
                body := json_dumps Demo.demo_runtime
                          (JStr (lit "Skipping file " ++ lit "results.txt"
                                 ++ lit " - not a transcript JSON file")) |},
          w3)
       /\ trace w3 = trace Demo.configured_world
       /\ s3_objects w3 = s3_objects Demo.configured_world.
Proof.
  destruct (summary_starts_nothing_again Demo.demo_runtime
              Demo.transcript_event
              (JStr (lit "text-bucket")) (JStr (lit "job123-transcript.json"))
              Demo.configured_world
              (fst (Summarize.lambda_handler Demo.demo_runtime
                      Demo.transcript_event Demo.configured_world))
              (snd (Summarize.lambda_handler Demo.demo_runtime
                      Demo.transcript_event Demo.configured_world))
              [GetObject (lit "text-bucket") (lit "job123-transcript.json");
               FileRead (lit "prompt_template.txt");
               InvokeModel (Summarize.model_kwargs Demo.demo_runtime
                              Demo.scenario1_prompt);
               PutObject (lit "text-bucket") (lit "results.txt")
                 (lit "Positive; no issues.") (lit "text/plain")]
              (lit "text-bucket") (lit "results.txt")
              (lit "Positive; no issues.") (lit "text/plain")
              eq_refl eq_refl)
    as (Hb & Hk & Hskip).
  - vm_compute. reflexivity.
  - vm_compute. reflexivity.
  - right. right. right. left. reflexivity.
  - split; [exact Hb|]. split; [exact Hk|].
    exact (proj1 (Hskip Demo.demo_runtime Demo.configured_world)).
Defined.

Lemma no_suffix (t s : list call) : t = t ++ s -> s = [].
Proof.
  intros H. rewrite <- (app_nil_r t) in H at 1.
  apply app_inv_head in H. congruence.
Qed.

(** The calls of a finished case of a run, read off its trace. *)
Ltac calls_of_run H Htrace Hin :=
  rewrite <- ?app_assoc in H; cbn [app] in H;
  injection H as <- <-;
  cbn [environ s3_objects files uuids_drawn trace stdout] in Htrace;
  first [apply app_inv_head in Htrace | apply no_suffix in Htrace];
  subst; cbn [In] in Hin;
  repeat match type of Hin with
         | _ \/ _ => destruct Hin as [Hin|Hin]
         end;
  try contradiction; try discriminate Hin.

(** X15. The summarization handler invokes the model only on a prompt
    rendered from the template file with the dialogue that the formatter
    made of the object of the event: when the object is missing, is not
    UTF-8 or is not a transcript the formatter accepts, or when the
    template is missing or does not render, the model is not invoked. *)
Theorem prompt_comes_from_the_transcript (rt : runtime)
    (event bucket key : json) (w : world) (r : result response) (w' : world)
    (suffix : list call) (kwargs : invoke_kwargs) :
  record_field event (lit "bucket") (lit "name") = Ok bucket ->
  record_field event (lit "object") (lit "key") = Ok key ->
  Summarize.lambda_handler rt event w = (r, w') ->
  trace w' = trace w ++ suffix ->
  In (InvokeModel kwargs) suffix ->
  exists (b k : pystr) (object : s3_object)
         (file_content dialogue template_string prompt : pystr),
    bucket = JStr b /\ key = JStr k
    /\ s3_objects w !! (b, k) = Some object
    /\ utf8_decode rt (obj_body object) = Ok file_content
    /\ Summarize.extract_transcript_from_textract rt file_content = Ok dialogue
    /\ files w !! lit "prompt_template.txt" = Some template_string
    /\ jinja_render rt template_string (Summarize.template_data dialogue)
       = Ok prompt
    /\ kwargs = Summarize.model_kwargs rt prompt.
Proof.
  intros Hbucket Hkey.
  unfold Summarize.lambda_handler, Summarize.summarise_and_store,
    Summarize.read_and_summarise, Summarize.bedrock_summarisation,
    Summarize.render_prompt, Summarize.error_response,
    get_object_body, open_read, invoke_model, put_object,
    param_validation_error.
  run_monad. rewrite Hbucket, Hkey. intros H Htrace Hin.
  destruct (py_contains (lit "-transcript.json") key) as [[|]|e] eqn:Hacc;
    cbn [negb] in H.
  - destruct bucket, key; repeat case_run H; calls_of_run H Htrace Hin;
      injection Hin as <-;
      eexists _, _, _, _, _, _, _; repeat split; eassumption.
  - calls_of_run H Htrace Hin.
  - calls_of_run H Htrace Hin.
Qed.

Lemma prompt_comes_from_the_transcript_witness :
  exists (b k : pystr) (object : s3_object)
         (file_content dialogue template_string prompt : pystr),
    JStr (lit "text-bucket") = JStr b
    /\ JStr (lit "job123-transcript.json") = JStr k
    /\ s3_objects Demo.configured_world !! (b, k) = Some object
    /\ utf8_decode Demo.demo_runtime (obj_body object) = Ok file_content
    /\ Summarize.extract_transcript_from_textract Demo.demo_runtime file_content
       = Ok dialogue
    /\ files Demo.configured_world !! lit "prompt_template.txt"
       = Some template_string
    /\ jinja_render Demo.demo_runtime template_string
         (Summarize.template_data dialogue) = Ok prompt
    /\ Summarize.model_kwargs Demo.demo_runtime Demo.scenario1_prompt
       = Summarize.model_kwargs Demo.demo_runtime prompt.
Proof.
  apply (prompt_comes_from_the_transcript Demo.demo_runtime
           Demo.transcript_event
           (JStr (lit "text-bucket")) (JStr (lit "job123-transcript.json"))
           Demo.configured_world
           (fst (Summarize.lambda_handler Demo.demo_runtime
                   Demo.transcript_event Demo.configured_world))
           (snd (Summarize.lambda_handler Demo.demo_runtime
                   Demo.transcript_event Demo.configured_world))
           [GetObject (lit "text-bucket") (lit "job123-transcript.json");
            FileRead (lit "prompt_template.txt");
            InvokeModel (Summarize.model_kwargs Demo.demo_runtime
                           Demo.scenario1_prompt);
            PutObject (lit "text-bucket") (lit "results.txt")
              (lit "Positive; no issues.") (lit "text/plain")]
           (Summarize.model_kwargs Demo.demo_runtime Demo.scenario1_prompt)).
  - reflexivity.
  - reflexivity.
  - vm_compute. reflexivity.
  - vm_compute. reflexivity.
  - right. right. left. reflexivity.
Defined.

(** X16. What the summarization handler writes to results.txt is the
    summary it extracted from the model's answer to its one invocation,
    as text/plain: nothing is written when the model was not invoked, when
    its answer could not be read, or when the summary is not a string. *)
Theorem written_body_is_the_summary (rt : runtime)
    (event bucket key : json) (w : world) (r : result response) (w' : world)
    (suffix : list call) (b k body content_type : pystr) :
  record_field event (lit "bucket") (lit "name") = Ok bucket ->
  record_field event (lit "object") (lit "key") = Ok key ->
  Summarize.lambda_handler rt event w = (r, w') ->
  trace w' = trace w ++ suffix ->
  In (PutObject b k body content_type) suffix ->
  exists (object_key prompt : pystr),
    content_type = lit "text/plain"
    /\ suffix
       = [GetObject b object_key; FileRead (lit "prompt_template.txt");
          InvokeModel (Summarize.model_kwargs rt prompt);
          PutObject b k body content_type]
    /\ Summarize.parse_summary rt
         (bedrock_reply rt
            (trace w ++ [GetObject b object_key;
                         FileRead (lit "prompt_template.txt")])
            (Summarize.model_kwargs rt prompt))
       = Ok (JStr body).
Proof.
  intros Hbucket Hkey.
  unfold Summarize.lambda_handler, Summarize.summarise_and_store,
    Summarize.read_and_summarise, Summarize.bedrock_summarisation,
    Summarize.render_prompt, Summarize.error_response,
    get_object_body, open_read, invoke_model, put_object,
    param_validation_error.
  run_monad. rewrite Hbucket, Hkey. intros H Htrace Hin.
  destruct (py_contains (lit "-transcript.json") key) as [[|]|e] eqn:Hacc;
    cbn [negb] in H.
  - destruct bucket, key; repeat case_run H; calls_of_run H Htrace Hin;
      injection Hin as <- <- <- <-;
      eexists _, _; (split; [reflexivity|]); (split; [reflexivity|]);
      rewrite <- ?app_assoc in *; cbn [app] in *; eassumption.
  - calls_of_run H Htrace Hin.
  - calls_of_run H Htrace Hin.
Qed.

Lemma written_body_is_the_summary_witness :
  exists (object_key prompt : pystr),
    lit "text/plain" = lit "text/plain"
    /\ [GetObject (lit "text-bucket") (lit "job123-transcript.json");
        FileRead (lit "prompt_template.txt");
        InvokeModel (Summarize.model_kwargs Demo.demo_runtime
                       Demo.scenario1_prompt);
        PutObject (lit "text-bucket") (lit "results.txt")
          (lit "Positive; no issues.") (lit "text/plain")]
       = [GetObject (lit "text-bucket") object_key;
          FileRead (lit "prompt_template.txt");
          InvokeModel (Summarize.model_kwargs Demo.demo_runtime prompt);
          PutObject (lit "text-bucket") (lit "results.txt")
            (lit "Positive; no issues.") (lit "text/plain")]
    /\ Summarize.parse_summary Demo.demo_runtime
         (bedrock_reply Demo.demo_runtime
            (trace Demo.configured_world
             ++ [GetObject (lit "text-bucket") object_key;
                 FileRead (lit "prompt_template.txt")])
            (Summarize.model_kwargs Demo.demo_runtime prompt))
       = Ok (JStr (lit "Positive; no issues.")).
Proof.
  apply (written_body_is_the_summary Demo.demo_runtime
           Demo.transcript_event
           (JStr (lit "text-bucket")) (JStr (lit "job123-transcript.json"))
           Demo.configured_world
           (fst (Summarize.lambda_handler Demo.demo_runtime
                   Demo.transcript_event Demo.configured_world))
           (snd (Summarize.lambda_handler Demo.demo_runtime
                   Demo.transcript_event Demo.configured_world))).
  - reflexivity.
  - reflexivity.
  - vm_compute. reflexivity.
  - vm_compute. reflexivity.
  - right. right. right. left. reflexivity.
Defined.

(** X17. On items of the documented shape the formatter returns the empty
    string for the empty list of items, and for it only. *)
Theorem formatter_empty_iff_no_item (rt : runtime) (doc results : json)
    (items : list json) :
  getitem_key doc (lit "results") = Ok results ->
  getitem_key results (lit "items") = Ok (JArr items) ->
  forallb well_formed_item items = true ->
  Summarize.extract_transcript rt doc = Ok [] <-> items = [].
Proof.
  intros Hres Hitems Hwf.
  rewrite (extract_transcript_items rt doc results _ Hres Hitems).
  split.
  - destruct items as [|item items']; [reflexivity|].
    destruct (List.exists_last (l := item :: items')) as (pre & last & Heq);
      [discriminate|].
    rewrite Heq in *. intros H. exfalso.
    rewrite forallb_app in Hwf. apply andb_prop in Hwf as [Hpre Hlast].
    cbn [forallb] in Hlast. rewrite andb_true_r in Hlast.
    rewrite format_items_app in H.
    destruct (format_items_wf rt pre [] JNull Hpre) as [out Hout].
    rewrite Hout in H. cbn [rbind Summarize.format_items] in H.
    rewrite (format_item_wf rt _ _ last Hlast) in H. cbn [rbind fst] in H.
    injection H as H. apply app_eq_nil in H as [_ H].
    apply app_eq_nil in H as [_ H]. discriminate H.
  - intros ->. reflexivity.
Qed.

Lemma formatter_empty_iff_no_item_witness :
  Summarize.extract_transcript Demo.demo_runtime (transcript_document [])
  = Ok [] <-> (@nil json) = [].
Proof.
  apply (formatter_empty_iff_no_item Demo.demo_runtime (transcript_document [])
           (JObj [(lit "items", JArr [])]) []).
  - reflexivity.
  - reflexivity.
  - reflexivity.
Defined.
